(** * Draggable / resizable floating window: geometry controller

    Shallow embedding of the window-interaction logic of the trade terminal,
    as written twice in the repository: once as the [useDraggableWindow] hook
    and once inline in the [DraggableWindow] component.

    Modelling conventions.
    - JavaScript numbers that carry pixel coordinates are integers of [Z];
      [Math.max] and [Math.min] are [Z.max] and [Z.min].  Non-finite numbers
      are outside the model.
    - Each [useState] cell is a field of [State].  A handler is a closure over
      the values of the render it was created in: it READS the snapshot and
      WRITES through setters, and the writes of one handler run are committed
      together.  [Handler] is the little writer monad for this: the snapshot is
      an ordinary argument of the handler, the pending state is threaded, and
      the outward effects (callback invocations, [stopPropagation]) are
      collected in order.
    - Every event is handled against the committed state of the previous one.
    - The live viewport ([window.innerWidth], [window.innerHeight]) and the
      bounding rectangle of the window element are read from the environment
      by the source; here they are explicit arguments, [None] standing for an
      undefined [window], resp. an unattached ref. *)

From Stdlib Require Import ZArith List Bool Lia.
From Stdlib Require String Ascii DecimalString DecimalNat.
Import ListNotations.
Import String.StringSyntax Ascii.AsciiSyntax.
Local Open Scope Z_scope.
Delimit Scope string_scope with string.
Delimit Scope char_scope with char.

(** ** Data model *)

(** [{ x: number; y: number }] *)
Record Point : Set := mkPoint { x : Z; y : Z }.

(** [{ width: number; height: number }] *)
Record Size : Set := mkSize { width : Z; height : Z }.

(** [resizeStart]: [{ x, y, width, height }], the pointer position and the
    window size at the press on the resize handle. *)
Record ResizeStart : Set :=
  mkResizeStart { rs_x : Z; rs_y : Z; rs_width : Z; rs_height : Z }.

(** The two fields of [window] the code reads. *)
Record Viewport : Set := mkViewport { innerWidth : Z; innerHeight : Z }.

(** The two fields of a mouse event the code reads. *)
Record MouseEvent : Set := mkMouseEvent { clientX : Z; clientY : Z }.

(** The two fields of [getBoundingClientRect()] the code reads. *)
Record DOMRect : Set := mkDOMRect { rect_left : Z; rect_top : Z }.

(** The nine [useState] cells, in declaration order. *)
Record State : Set := mkState {
  position : Point;
  size : Size;
  isDragging : bool;
  isResizing : bool;
  isMaximized : bool;
  dragStart : Point;
  resizeStart : ResizeStart;
  prevPosition : Point;
  prevSize : Size
}.

(** The optional callbacks are opaque to the controller; what is observable is
    which of them was invoked. *)
Inductive Notification : Set := DragStart | DragEnd.

Inductive Effect : Set :=
| Notify (n : Notification)
| StopPropagation.

(** Options of the hook / props of the component that the transition logic
    reads.  [onDragStart] and [onDragEnd] say whether the optional callback
    was supplied. *)
Record Props : Set := mkProps {
  initialPosition : Point;
  initialSize : Size;
  minWidth : Z;
  minHeight : Z;
  onDragStart : bool;
  onDragEnd : bool
}.

(** The defaults of the destructured parameter. *)
Definition defaultProps : Props :=
  {| initialPosition := {| x := 100; y := 100 |};
     initialSize := {| width := 400; height := 600 |};
     minWidth := 300;
     minHeight := 400;
     onDragStart := false;
     onDragEnd := false |}.

(** The state of the first render. *)
Definition initialState (P : Props) : State :=
  {| position := initialPosition P;
     size := initialSize P;
     isDragging := false;
     isResizing := false;
     isMaximized := false;
     dragStart := {| x := 0; y := 0 |};
     resizeStart := {| rs_x := 0; rs_y := 0; rs_width := 0; rs_height := 0 |};
     prevPosition := initialPosition P;
     prevSize := initialSize P |}.

(** ** Handlers as batched state writers *)

Module React.

Definition Handler (A : Type) : Type := State -> A * State * list Effect.

Definition ret {A : Type} (a : A) : Handler A := fun pending => (a, pending, []).

Definition bind {A B : Type} (m : Handler A) (k : A -> Handler B) : Handler B :=
  fun pending =>
    let '(a, p1, out1) := m pending in
    let '(b, p2, out2) := k a p1 in
    (b, p2, out1 ++ out2).

Definition skip : Handler unit := ret tt.

Definition write (f : State -> State) : Handler unit :=
  fun pending => (tt, f pending, []).

Definition emit (e : Effect) : Handler unit :=
  fun pending => (tt, pending, [e]).

(** [cb?.()] *)
Definition callOptional (supplied : bool) (n : Notification) : Handler unit :=
  if supplied then emit (Notify n) else skip.

Definition setPosition (v : Point) : Handler unit :=
  write (fun s => mkState v (size s) (isDragging s) (isResizing s)
    (isMaximized s) (dragStart s) (resizeStart s) (prevPosition s) (prevSize s)).

Definition setSize (v : Size) : Handler unit :=
  write (fun s => mkState (position s) v (isDragging s) (isResizing s)
    (isMaximized s) (dragStart s) (resizeStart s) (prevPosition s) (prevSize s)).

Definition setIsDragging (v : bool) : Handler unit :=
  write (fun s => mkState (position s) (size s) v (isResizing s)
    (isMaximized s) (dragStart s) (resizeStart s) (prevPosition s) (prevSize s)).

Definition setIsResizing (v : bool) : Handler unit :=
  write (fun s => mkState (position s) (size s) (isDragging s) v
    (isMaximized s) (dragStart s) (resizeStart s) (prevPosition s) (prevSize s)).

Definition setIsMaximized (v : bool) : Handler unit :=
  write (fun s => mkState (position s) (size s) (isDragging s) (isResizing s)
    v (dragStart s) (resizeStart s) (prevPosition s) (prevSize s)).

Definition setDragStart (v : Point) : Handler unit :=
  write (fun s => mkState (position s) (size s) (isDragging s) (isResizing s)
    (isMaximized s) v (resizeStart s) (prevPosition s) (prevSize s)).

Definition setResizeStart (v : ResizeStart) : Handler unit :=
  write (fun s => mkState (position s) (size s) (isDragging s) (isResizing s)
    (isMaximized s) (dragStart s) v (prevPosition s) (prevSize s)).

Definition setPrevPosition (v : Point) : Handler unit :=
  write (fun s => mkState (position s) (size s) (isDragging s) (isResizing s)
    (isMaximized s) (dragStart s) (resizeStart s) v (prevSize s)).

Definition setPrevSize (v : Size) : Handler unit :=
  write (fun s => mkState (position s) (size s) (isDragging s) (isResizing s)
    (isMaximized s) (dragStart s) (resizeStart s) (prevPosition s) v).

(** Run a handler that closes over the render snapshot [s]: the pending
    state starts as [s]; the result is the committed state and the effects
    in the order they happened. *)
Definition dispatch (h : State -> Handler unit) (s : State)
  : State * list Effect :=
  let '(_, s', out) := h s s in (s', out).

Declare Scope handler_scope.
Delimit Scope handler_scope with handler.
Notation "m ;; k" := (bind m (fun _ => k))
  (at level 61, right associativity) : handler_scope.

End React.

Import React.
Local Open Scope handler_scope.

(** ** The hook [useDraggableWindow] *)

Module Hook.

Definition handleMouseMove (P : Props) (win : option Viewport)
    (e : MouseEvent) (s : State) : Handler unit :=
  match win with
  | None => skip
  | Some window =>
    if isDragging s then
      let newX := clientX e - x (dragStart s) in
      let newY := clientY e - y (dragStart s) in
      let maxX := innerWidth window - width (size s) in
      let maxY := innerHeight window
                  - (if isMaximized s then 0 else height (size s)) in
      setPosition {| x := Z.max 0 (Z.min newX maxX);
                     y := Z.max 0 (Z.min newY maxY) |}
    else if isResizing s then
      let deltaX := clientX e - rs_x (resizeStart s) in
      let deltaY := clientY e - rs_y (resizeStart s) in
      let newWidth := Z.max (minWidth P) (rs_width (resizeStart s) + deltaX) in
      let newHeight := Z.max (minHeight P) (rs_height (resizeStart s) + deltaY) in
      let maxWidth := innerWidth window - x (position s) in
      let maxHeight := innerHeight window - y (position s) in
      setSize {| width := Z.min newWidth maxWidth;
                 height := Z.min newHeight maxHeight |}
    else skip
  end.

Definition handleMouseUp (P : Props) (s : State) : Handler unit :=
  (if isDragging s then
     setIsDragging false ;;
     callOptional (onDragEnd P) DragEnd
   else skip) ;;
  (if isResizing s then setIsResizing false else skip).

Definition handleHeaderMouseDown (P : Props) (rect : option DOMRect)
    (e : MouseEvent) (s : State) : Handler unit :=
  if isMaximized s then skip
  else
    match rect with
    | Some r =>
      setDragStart {| x := clientX e - rect_left r;
                      y := clientY e - rect_top r |} ;;
      setIsDragging true ;;
      callOptional (onDragStart P) DragStart
    | None => skip
    end.

Definition handleResizeMouseDown (e : MouseEvent) (s : State) : Handler unit :=
  emit StopPropagation ;;
  if isMaximized s then skip
  else
    setResizeStart {| rs_x := clientX e;
                      rs_y := clientY e;
                      rs_width := width (size s);
                      rs_height := height (size s) |} ;;
    setIsResizing true.

Definition handleMaximize (win : option Viewport) (s : State) : Handler unit :=
  match win with
  | None => skip
  | Some window =>
    if isMaximized s then
      setPosition (prevPosition s) ;;
      setSize (prevSize s) ;;
      setIsMaximized false
    else
      setPrevPosition (position s) ;;
      setPrevSize (size s) ;;
      setPosition {| x := 0; y := 0 |} ;;
      setSize {| width := innerWidth window; height := innerHeight window |} ;;
      setIsMaximized true
  end.

(** The effect subscribes the two document listeners only while this holds. *)
Definition listening (s : State) : bool := isDragging s || isResizing s.

End Hook.

(** ** The component [DraggableWindow]

    The component declares the same nine state cells and defines its handlers
    inline.  Its further props ([children], [title], [onClose], [className])
    and its [headerRef] are not read by any handler below. *)

Module Component.

Definition handleMouseMove (P : Props) (win : option Viewport)
    (e : MouseEvent) (s : State) : Handler unit :=
  match win with
  | None => skip
  | Some window =>
    if isDragging s then
      let newX := clientX e - x (dragStart s) in
      let newY := clientY e - y (dragStart s) in
      let maxX := innerWidth window - width (size s) in
      let maxY := innerHeight window
                  - (if isMaximized s then 0 else height (size s)) in
      setPosition {| x := Z.max 0 (Z.min newX maxX);
                     y := Z.max 0 (Z.min newY maxY) |}
    else if isResizing s then
      let deltaX := clientX e - rs_x (resizeStart s) in
      let deltaY := clientY e - rs_y (resizeStart s) in
      let newWidth := Z.max (minWidth P) (rs_width (resizeStart s) + deltaX) in
      let newHeight := Z.max (minHeight P) (rs_height (resizeStart s) + deltaY) in
      let maxWidth := innerWidth window - x (position s) in
      let maxHeight := innerHeight window - y (position s) in
      setSize {| width := Z.min newWidth maxWidth;
                 height := Z.min newHeight maxHeight |}
    else skip
  end.

Definition handleMouseUp (P : Props) (s : State) : Handler unit :=
  (if isDragging s then
     setIsDragging false ;;
     callOptional (onDragEnd P) DragEnd
   else skip) ;;
  (if isResizing s then setIsResizing false else skip).

Definition handleHeaderMouseDown (P : Props) (rect : option DOMRect)
    (e : MouseEvent) (s : State) : Handler unit :=
  if isMaximized s then skip
  else
    match rect with
    | Some r =>
      setDragStart {| x := clientX e - rect_left r;
                      y := clientY e - rect_top r |} ;;
      setIsDragging true ;;
      callOptional (onDragStart P) DragStart
    | None => skip
    end.

Definition handleResizeMouseDown (e : MouseEvent) (s : State) : Handler unit :=
  emit StopPropagation ;;
  if isMaximized s then skip
  else
    setResizeStart {| rs_x := clientX e;
                      rs_y := clientY e;
                      rs_width := width (size s);
                      rs_height := height (size s) |} ;;
    setIsResizing true.

Definition handleMaximize (win : option Viewport) (s : State) : Handler unit :=
  match win with
  | None => skip
  | Some window =>
    if isMaximized s then
      setPosition (prevPosition s) ;;
      setSize (prevSize s) ;;
      setIsMaximized false
    else
      setPrevPosition (position s) ;;
      setPrevSize (size s) ;;
      setPosition {| x := 0; y := 0 |} ;;
      setSize {| width := innerWidth window; height := innerHeight window |} ;;
      setIsMaximized true
  end.

Definition listening (s : State) : bool := isDragging s || isResizing s.

End Component.

(** ** The controller interface

    The five transition entry points, over either implementation.  The
    correspondence of names is: [dragAnchor] is [dragStart], [resizeAnchor]
    is [resizeStart] (origin [rs_x], [rs_y]; size [rs_width], [rs_height]),
    [savedPosition] and [savedSize] are [prevPosition] and [prevSize], and the
    viewport bounds are [innerWidth] and [innerHeight]. *)

Inductive Impl : Set := HookImpl | ComponentImpl.

Inductive InteractionMode : Set := Idle | Dragging | Resizing.

(** The mode a pointer move is treated in: the move handler tests
    [isDragging] first and [isResizing] only otherwise. *)
Definition mode (s : State) : InteractionMode :=
  if isDragging s then Dragging
  else if isResizing s then Resizing
  else Idle.

Definition pointerEvent (p : Point) : MouseEvent :=
  {| clientX := x p; clientY := y p |}.

Definition originRect (o : Point) : DOMRect :=
  {| rect_left := x o; rect_top := y o |}.

Definition beginDrag (i : Impl) (P : Props) (pointerPos windowOrigin : Point)
    (s : State) : State * list Effect :=
  match i with
  | HookImpl =>
    dispatch (Hook.handleHeaderMouseDown P (Some (originRect windowOrigin))
                (pointerEvent pointerPos)) s
  | ComponentImpl =>
    dispatch (Component.handleHeaderMouseDown P (Some (originRect windowOrigin))
                (pointerEvent pointerPos)) s
  end.

Definition beginResize (i : Impl) (pointerPos : Point) (s : State)
    : State * list Effect :=
  match i with
  | HookImpl => dispatch (Hook.handleResizeMouseDown (pointerEvent pointerPos)) s
  | ComponentImpl =>
    dispatch (Component.handleResizeMouseDown (pointerEvent pointerPos)) s
  end.

Definition onPointerMove (i : Impl) (P : Props) (pointerPos : Point)
    (viewportBounds : Viewport) (s : State) : State * list Effect :=
  match i with
  | HookImpl =>
    dispatch (Hook.handleMouseMove P (Some viewportBounds)
                (pointerEvent pointerPos)) s
  | ComponentImpl =>
    dispatch (Component.handleMouseMove P (Some viewportBounds)
                (pointerEvent pointerPos)) s
  end.

Definition endInteraction (i : Impl) (P : Props) (s : State)
    : State * list Effect :=
  match i with
  | HookImpl => dispatch (Hook.handleMouseUp P) s
  | ComponentImpl => dispatch (Component.handleMouseUp P) s
  end.

Definition toggleMaximize (i : Impl) (viewportBounds : Viewport) (s : State)
    : State * list Effect :=
  match i with
  | HookImpl => dispatch (Hook.handleMaximize (Some viewportBounds)) s
  | ComponentImpl => dispatch (Component.handleMaximize (Some viewportBounds)) s
  end.

(** The callback invocations among the effects of a transition. *)
Fixpoint notifications (out : list Effect) : list Notification :=
  match out with
  | [] => []
  | Notify n :: rest => n :: notifications rest
  | StopPropagation :: rest => notifications rest
  end.

(** One external event of the controller. *)
Inductive Op : Set :=
| BeginDrag (pointerPos windowOrigin : Point)
| BeginResize (pointerPos : Point)
| OnPointerMove (pointerPos : Point) (viewportBounds : Viewport)
| EndInteraction
| ToggleMaximize (viewportBounds : Viewport).

Definition step (i : Impl) (P : Props) (op : Op) (s : State)
    : State * list Effect :=
  match op with
  | BeginDrag p o => beginDrag i P p o s
  | BeginResize p => beginResize i p s
  | OnPointerMove p vb => onPointerMove i P p vb s
  | EndInteraction => endInteraction i P s
  | ToggleMaximize vb => toggleMaximize i vb s
  end.

(** A session: the events are applied in delivery order, each to the state
    committed by the previous one; the effects are concatenated. *)
Fixpoint run (i : Impl) (P : Props) (ops : list Op) (s : State)
    : State * list Effect :=
  match ops with
  | [] => (s, [])
  | op :: rest =>
    let '(s1, out1) := step i P op s in
    let '(s2, out2) := run i P rest s1 in
    (s2, out1 ++ out2)
  end.

(** The states the controller can be in: those a session reaches from the
    state of the first render. *)
Inductive reachable (i : Impl) (P : Props) : State -> Prop :=
| reachable_init : reachable i P (initialState P)
| reachable_step (op : Op) (s : State) :
    reachable i P s -> reachable i P (fst (step i P op s)).

(** The size lower bound. *)
Definition sizeAtLeastMin (P : Props) (sz : Size) : Prop :=
  minWidth P <= width sz /\ minHeight P <= height sz.

(** The viewport of an event leaves room for the minimum size: for a pointer
    move that resizes, to the right of and below the window's top-left corner;
    for a toggle that maximizes, in the whole viewport. *)
Definition leavesRoom (P : Props) (op : Op) (s : State) : Prop :=
  match op with
  | OnPointerMove _ vb =>
    mode s = Resizing ->
    minWidth P <= innerWidth vb - x (position s) /\
    minHeight P <= innerHeight vb - y (position s)
  | ToggleMaximize vb =>
    isMaximized s = false ->
    minWidth P <= innerWidth vb /\ minHeight P <= innerHeight vb
  | _ => True
  end.

(** [leavesRoom] at every event of a session. *)
Fixpoint roomySession (i : Impl) (P : Props) (ops : list Op) (s : State) : Prop :=
  match ops with
  | [] => True
  | op :: rest =>
    leavesRoom P op s /\ roomySession i P rest (fst (step i P op s))
  end.

(** ** The scenarios of the specification *)

Definition viewport1280 : Viewport := {| innerWidth := 1280; innerHeight := 800 |}.

(** Scenario A after the press on the header. *)
Definition scenarioA_pressed (i : Impl) : State :=
  fst (beginDrag i defaultProps {| x := 150; y := 150 |} {| x := 100; y := 100 |}
         (initialState defaultProps)).

(** Scenario B after the press on the resize handle. *)
Definition scenarioB_pressed (i : Impl) : State :=
  fst (beginResize i {| x := 500; y := 700 |} (initialState defaultProps)).

(** Scenario C. *)
Definition scenarioC_maximized (i : Impl) : State :=
  fst (toggleMaximize i viewport1280 (initialState defaultProps)).

(** Scenario A continued: the maximize toggle arrives while the header is
    still pressed. *)
Definition scenarioA_maximized (i : Impl) : State :=
  fst (toggleMaximize i viewport1280 (scenarioA_pressed i)).

(** Scenario B continued: the maximize toggle arrives while the resize handle
    is still pressed. *)
Definition scenarioB_maximized (i : Impl) : State :=
  fst (toggleMaximize i viewport1280 (scenarioB_pressed i)).

(** A viewport smaller than the default minimum size. *)
Definition viewport200 : Viewport := {| innerWidth := 200; innerHeight := 200 |}.

(** A viewport narrower than position plus minimum width of scenario B. *)
Definition viewport350 : Viewport := {| innerWidth := 350; innerHeight := 800 |}.

(** The default geometry with both callbacks supplied. *)
Definition notifiedProps : Props :=
  {| initialPosition := {| x := 100; y := 100 |};
     initialSize := {| width := 400; height := 600 |};
     minWidth := 300;
     minHeight := 400;
     onDragStart := true;
     onDragEnd := true |}.

(** Scenario A after the press on the header, with the callbacks supplied. *)
Definition scenarioA_notified (i : Impl) : State :=
  fst (beginDrag i notifiedProps {| x := 150; y := 150 |} {| x := 100; y := 100 |}
         (initialState notifiedProps)).


(** ** Sessions and the document listeners *)

(** The condition under which the effect has the two document listeners
    subscribed. *)
Definition listening (i : Impl) (s : State) : bool :=
  match i with
  | HookImpl => Hook.listening s
  | ComponentImpl => Component.listening s
  end.

(** A [mousemove] on the document: it reaches [handleMouseMove] only while
    the listener is subscribed. *)
Definition documentMouseMove (i : Impl) (P : Props) (win : option Viewport)
    (e : MouseEvent) (s : State) : State * list Effect :=
  if listening i s then
    match i with
    | HookImpl => dispatch (Hook.handleMouseMove P win e) s
    | ComponentImpl => dispatch (Component.handleMouseMove P win e) s
    end
  else (s, []).

(** A [mouseup] on the document, likewise. *)
Definition documentMouseUp (i : Impl) (P : Props) (s : State)
    : State * list Effect :=
  if listening i s then
    match i with
    | HookImpl => dispatch (Hook.handleMouseUp P) s
    | ComponentImpl => dispatch (Component.handleMouseUp P) s
    end
  else (s, []).

Definition isPointerMove (op : Op) : bool :=
  match op with
  | OnPointerMove _ _ => true
  | _ => false
  end.

Definition isToggle (op : Op) : bool :=
  match op with
  | ToggleMaximize _ => true
  | _ => false
  end.

Definition isNotification (n : Notification) (e : Effect) : bool :=
  match e, n with
  | Notify DragStart, DragStart => true
  | Notify DragEnd, DragEnd => true
  | _, _ => false
  end.

(** How often a callback was invoked in a session. *)
Definition invocations (n : Notification) (out : list Effect) : nat :=
  List.length (filter (isNotification n) out).

(** 1 while a drag is in progress. *)
Definition dragsOpen (s : State) : nat := if isDragging s then 1%nat else 0%nat.

(** Displace a point. *)
Definition translate (p d : Point) : Point :=
  {| x := x p + x d; y := y p + y d |}.

(** A press on the header at [(150,150)], two moves, a release; then a press
    on the handle, a move and a release. *)
Definition sampleSession : list Op :=
  [BeginDrag {| x := 150; y := 150 |} {| x := 100; y := 100 |};
   OnPointerMove {| x := 300; y := 200 |} viewport1280;
   OnPointerMove {| x := 900; y := 750 |} viewport1280;
   EndInteraction;
   BeginResize {| x := 1250; y := 800 |};
   OnPointerMove {| x := 1200; y := 790 |} viewport1280;
   EndInteraction].


(** ** Preset selection: the hook [useTogglePreset]

    The hook keeps one string, [value].  A handler is modelled as the function
    from the value of the render it closes over to the value it sets.
    [toString] stands for [preset.toString()] at the type [T] of the presets
    (strings or numbers). *)

Module TogglePreset.

Definition togglePreset {T : Type} (toString : T -> String.string)
    (value : String.string) (preset : T) : String.string :=
  let presetString := toString preset in
  if String.eqb value presetString then String.EmptyString else presetString.

Definition setPreset {T : Type} (toString : T -> String.string)
    (value : String.string) (preset : T) : String.string :=
  toString preset.

Definition clearPreset (value : String.string) : String.string :=
  String.EmptyString.

End TogglePreset.

(** ** The trading panel: preset buttons and the one-click trade *)

Module Trade.

Inductive TradeMode : Set := buy | sell.

(** What an awaited call or a call that may throw comes back with: its
    value, or the [message] of the error thrown. *)
Inductive Outcome (A : Type) : Type :=
| Resolved (a : A)
| Thrown (message : String.string).

Arguments Resolved {A} a.
Arguments Thrown {A} message.

Inductive ToastKind : Set := ToastLoading | ToastSuccess | ToastError.

(** The outward effects of a trade: a [toast.loading], [toast.success] or
    [toast.error] call with its message ([update] when [{ id: toastId }] is
    passed), and [setTimeout(refreshBalance, delay)]. *)
Inductive TradeEffect : Set :=
| Toast (kind : ToastKind) (message : String.string) (update : bool)
| SetTimeoutRefreshBalance (delay : Z).

(** The collaborators of the trade flow, none of which is code of the
    repository: [parseFloat], the [createTransaction] of the trade hook, and
    the signing, sending and confirming functions of the Solana library with
    the keypair and the connection of the render.  [confirmTransaction]
    yields whether [confirmation.value.err] is set. *)
Record Collaborators (Num Tx Signed : Type) : Type := {
  parseFloat : String.string -> Num;
  createTransaction : TradeMode -> Num -> Outcome Tx;
  signTransaction : Tx -> Outcome Signed;
  sendTransaction : Signed -> Outcome String.string;
  confirmTransaction : String.string -> Outcome bool
}.

Arguments parseFloat {Num Tx Signed} _ _.
Arguments createTransaction {Num Tx Signed} _ _ _.
Arguments signTransaction {Num Tx Signed} _ _.
Arguments sendTransaction {Num Tx Signed} _ _.
Arguments confirmTransaction {Num Tx Signed} _ _.

(** The body of a [try] block: the effects so far and how it went on. *)
Definition Attempt (A : Type) : Type := list TradeEffect * Outcome A.

Definition pure {A : Type} (a : A) : Attempt A := ([], Resolved a).

Definition throw {A : Type} (message : String.string) : Attempt A :=
  ([], Thrown message).

(** [await] of a call, or a call: a rejection or an exception leaves the
    block. *)
Definition await {A : Type} (r : Outcome A) : Attempt A := ([], r).

Definition perform (e : TradeEffect) : Attempt unit := ([e], Resolved tt).

Definition andThen {A B : Type} (m : Attempt A) (k : A -> Attempt B)
    : Attempt B :=
  match m with
  | (out1, Resolved a) => let '(out2, r) := k a in (out1 ++ out2, r)
  | (out1, Thrown message) => (out1, Thrown message)
  end.

(** [try { body } catch (error) { handler(error.message) }], run for its
    effects. *)
Definition tryCatch (body : Attempt unit)
    (handler : String.string -> list TradeEffect) : list TradeEffect :=
  match body with
  | (out, Resolved _) => out
  | (out, Thrown message) => out ++ handler message
  end.

Declare Scope attempt_scope.
Delimit Scope attempt_scope with attempt.
Notation "'let*' v ':=' m 'in' k" := (andThen m (fun v => k))
  (at level 10, v name, m at level 100, k at level 200) : attempt_scope.
Notation "m '>>' k" := (andThen m (fun _ => k))
  (at level 62, right associativity) : attempt_scope.

Local Open Scope attempt_scope.

(** [signature.slice(0, 8)] *)
Definition slice08 (signature : String.string) : String.string :=
  String.substring 0 8 signature.

End Trade.

(** The hook [useOneClickTrade]. *)

Module OneClickTrade.

Import Trade.
Local Open Scope string_scope.
Local Open Scope attempt_scope.

Definition handleTrade {Num Tx Signed : Type} (C : Collaborators Num Tx Signed)
    (tradeMode : TradeMode) (buyAmount sellPercentage : String.string)
    : list TradeEffect :=
  Toast ToastLoading "Submitting trade request..." false ::
  tryCatch
    (let* transaction :=
       await (createTransaction C tradeMode
                (match tradeMode with
                 | buy => parseFloat C buyAmount
                 | sell => parseFloat C sellPercentage
                 end)) in
     perform (Toast ToastLoading "Signing transaction..." true) >>
     let* signedTransaction := await (signTransaction C transaction) in
     perform (Toast ToastLoading "Sending transaction..." true) >>
     let* signature := await (sendTransaction C signedTransaction) in
     perform (Toast ToastLoading "Confirming transaction..." true) >>
     let* confirmation_value_err := await (confirmTransaction C signature) in
     (if confirmation_value_err then throw "Trade failed" else pure tt) >>
     perform (Toast ToastSuccess
                (String.append "Trade successful! TX: "
                   (String.append (slice08 signature) "..."))
                true) >>
     perform (SetTimeoutRefreshBalance 1000))
    (fun message => [Toast ToastError message true]).

End OneClickTrade.

(** The component [TradingPanel]: its three state cells, the inline handlers
    of its preset buttons, and its own copy of the trade flow. *)

Module TradingPanel.

Import Trade.
Local Open Scope string_scope.
Local Open Scope attempt_scope.

Record PanelState : Set := mkPanelState {
  tradeMode : TradeMode;
  buyAmount : String.string;
  sellPercentage : String.string
}.

Definition initialPanelState : PanelState :=
  {| tradeMode := buy;
     buyAmount := String.EmptyString;
     sellPercentage := String.EmptyString |}.

Definition setBuyAmount (v : String.string) (s : PanelState) : PanelState :=
  {| tradeMode := tradeMode s; buyAmount := v;
     sellPercentage := sellPercentage s |}.

Definition setSellPercentage (v : String.string) (s : PanelState) : PanelState :=
  {| tradeMode := tradeMode s; buyAmount := buyAmount s;
     sellPercentage := v |}.

(** [onClick] of a button of [solBuyAmountPresets]. *)
Definition clickBuyPreset {T : Type} (toString : T -> String.string)
    (preset : T) (s : PanelState) : PanelState :=
  if String.eqb (buyAmount s) (toString preset)
  then setBuyAmount String.EmptyString s
  else setBuyAmount (toString preset) s.

(** [onClick] of a button of [percentagePresets]. *)
Definition clickSellPreset {T : Type} (toString : T -> String.string)
    (preset : T) (s : PanelState) : PanelState :=
  if String.eqb (sellPercentage s) (toString preset)
  then setSellPercentage String.EmptyString s
  else setSellPercentage (toString preset) s.

(** The condition under which a preset button is drawn as selected. *)
Definition buyPresetSelected {T : Type} (toString : T -> String.string)
    (preset : T) (s : PanelState) : bool :=
  String.eqb (buyAmount s) (toString preset).

Definition sellPresetSelected {T : Type} (toString : T -> String.string)
    (preset : T) (s : PanelState) : bool :=
  String.eqb (sellPercentage s) (toString preset).

Definition handleTrade {Num Tx Signed : Type} (C : Collaborators Num Tx Signed)
    (s : PanelState) : list TradeEffect :=
  Toast ToastLoading "Submitting trade request..." false ::
  tryCatch
    (let* transaction :=
       await (createTransaction C (tradeMode s)
                (match tradeMode s with
                 | buy => parseFloat C (buyAmount s)
                 | sell => parseFloat C (sellPercentage s)
                 end)) in
     perform (Toast ToastLoading "Signing transaction..." true) >>
     let* signedTransaction := await (signTransaction C transaction) in
     perform (Toast ToastLoading "Sending transaction..." true) >>
     let* signature := await (sendTransaction C signedTransaction) in
     perform (Toast ToastLoading "Confirming transaction..." true) >>
     let* confirmation_value_err := await (confirmTransaction C signature) in
     (if confirmation_value_err then throw "Trade failed" else pure tt) >>
     perform (Toast ToastSuccess
                (String.append "Trade successful! TX: "
                   (String.append (slice08 signature) "..."))
                true) >>
     perform (SetTimeoutRefreshBalance 1000))
    (fun message => [Toast ToastError message true]).

End TradingPanel.






(** ** The token page: chart points and transaction rows *)

Module TokenPage.

Local Open Scope string_scope.

(** [array.map((element, index) => ...)] *)
Fixpoint mapiFrom {A B : Type} (f : A -> nat -> B) (start : nat) (arr : list A)
    : list B :=
  match arr with
  | [] => []
  | a :: rest => f a start :: mapiFrom f (S start) rest
  end.

Definition mapi {A B : Type} (f : A -> nat -> B) (arr : list A) : list B :=
  mapiFrom f 0 arr.

(** [arr?.[index]]: [undefined] when the array is missing or shorter. *)
Definition optionalIndex {V : Type} (arr : option (list V)) (index : nat)
    : option V :=
  match arr with
  | None => None
  | Some a => nth_error a index
  end.

(** [array.filter(ev => ev != null)] *)
Fixpoint nonNull {A : Type} (arr : list (option A)) : list A :=
  match arr with
  | [] => []
  | Some a :: rest => a :: nonNull rest
  | None :: rest => nonNull rest
  end.

(** The five series of the [getBars] response; each may be missing.  [V] is
    the type of their entries. *)
Record Bars (V : Type) : Type := mkBars {
  t : option (list V);
  o : option (list V);
  h : option (list V);
  l : option (list V);
  c : option (list V)
}.

Arguments mkBars {V} _ _ _ _ _.
Arguments t {V} _.
Arguments o {V} _.
Arguments h {V} _.
Arguments l {V} _.
Arguments c {V} _.

Record ChartDataPoint (V : Type) : Type := mkChartDataPoint {
  time : V;
  open : option V;
  high : option V;
  low : option V;
  close : option V
}.

Arguments mkChartDataPoint {V} _ _ _ _ _.
Arguments time {V} _.
Arguments open {V} _.
Arguments high {V} _.
Arguments low {V} _.
Arguments close {V} _.

(** The chart data computed from a fulfilled [getBars] result; [None] when
    the guard [b?.t && b?.c] fails and [setBars] is not called. *)
Definition chartData {V : Type} (getBars : option (Bars V))
    : option (list (ChartDataPoint V)) :=
  match getBars with
  | None => None
  | Some b =>
    match t b, c b with
    | Some times, Some _ =>
      Some (mapi (fun time index =>
                    {| time := time;
                       open := optionalIndex (o b) index;
                       high := optionalIndex (h b) index;
                       low := optionalIndex (l b) index;
                       close := optionalIndex (c b) index |})
              times)
    | _, _ => None
    end
  end.

(** The fields of an event of the [getTokenEvents] response that the page
    reads. *)
Record RawEvent : Set := mkRawEvent {
  ev_id : String.string;
  ev_timestamp : Z;
  ev_blockNumber : option Z;
  ev_transactionIndex : option Z;
  ev_logIndex : option Z;
  ev_transactionHash : String.string;
  ev_eventDisplayType : option String.string;
  ev_token0SwapValueUsd : option String.string;
  ev_data_amount0 : option String.string
}.

(** The floating-point operations of the USD amount, which are outside the
    model. *)
Record Floats (Num : Type) : Type := {
  parseFloat : String.string -> Num;
  times : Num -> Num -> Num;
  dividedBy : Num -> Num -> Num;
  abs : Num -> Num;
  tenToThe : Z -> Num
}.

Arguments parseFloat {Num} _ _.
Arguments times {Num} _ _ _.
Arguments dividedBy {Num} _ _ _.
Arguments abs {Num} _ _.
Arguments tenToThe {Num} _ _.

Record TokenEvent (Num : Type) : Type := mkTokenEvent {
  id : String.string;
  timestamp : Z;
  transactionHash : String.string;
  eventDisplayType : option String.string;
  amountUsd : option Num;
  uniqueId : option String.string
}.

Arguments mkTokenEvent {Num} _ _ _ _ _ _.
Arguments id {Num} _.
Arguments timestamp {Num} _.
Arguments transactionHash {Num} _.
Arguments eventDisplayType {Num} _.
Arguments amountUsd {Num} _.
Arguments uniqueId {Num} _.

(** [n || 0] on an integer that may be missing. *)
Definition orZero (n : option Z) : Z :=
  match n with
  | Some v => v
  | None => 0
  end.

(** [s || fallback] on a string that may be missing: the empty string is
    falsy. *)
Definition orString (s : option String.string) (fallback : String.string)
    : String.string :=
  match s with
  | Some (String.String a rest) => String.String a rest
  | Some String.EmptyString => fallback
  | None => fallback
  end.

(** An integer, resp. an index, inside a template literal. *)
Definition showZ (n : Z) : String.string :=
  DecimalString.NilEmpty.string_of_int (Z.to_int n).

Definition showNat (n : nat) : String.string :=
  DecimalString.NilEmpty.string_of_uint (Nat.to_uint n).

(** The template literal of [uniqueId]. *)
Definition uniqueIdOf (ev : RawEvent) (index : nat) : String.string :=
  String.append
    (String.append (ev_id ev)
       (String.append "-"
          (String.append (showZ (orZero (ev_blockNumber ev)))
             (String.append "-"
                (String.append (showZ (orZero (ev_transactionIndex ev)))
                   (String.append "-"
                      (showZ (orZero (ev_logIndex ev)))))))))
    (String.append "-" (showNat index)).

(** The rows computed from a fulfilled [getTokenEvents] result with items;
    [decimals] is [details?.decimals] of the render. *)
Definition tokenEvents {Num : Type} (F : Floats Num) (decimals : option Z)
    (items : list (option RawEvent)) : list (TokenEvent Num) :=
  mapi (fun ev index =>
          let decimals := match decimals with Some d => d | None => 18 end in
          let swapValue := parseFloat F (orString (ev_token0SwapValueUsd ev) "0") in
          let amount0 := parseFloat F (orString (ev_data_amount0 ev) "0") in
          let calculatedAmountUsd :=
            times F swapValue (abs F (dividedBy F amount0 (tenToThe F decimals))) in
          {| id := ev_id ev;
             timestamp := ev_timestamp ev;
             uniqueId := Some (uniqueIdOf ev index);
             transactionHash := ev_transactionHash ev;
             eventDisplayType := ev_eventDisplayType ev;
             amountUsd := Some calculatedAmountUsd |})
    (nonNull items).

(** The key of a table row: [event.uniqueId || event.id]. *)
Definition rowKey {Num : Type} (event : TokenEvent Num) : String.string :=
  orString (uniqueId event) (id event).

End TokenPage.

(** Whether a string contains the character [-]. *)
Fixpoint hasDash (s : String.string) : bool :=
  match s with
  | String.EmptyString => false
  | String.String a rest => Ascii.eqb a "-"%char || hasDash rest
  end.

(** Two swaps of one transaction that the response reports under one id, and
    a missing item between them. *)
Definition sampleItems : list (option TokenPage.RawEvent) :=
  [Some (TokenPage.mkRawEvent "0xabc:1"%string 1700000000 (Some 19) (Some 4)
           (Some 7) "0xfeed"%string (Some "Buy"%string) (Some "1.5"%string)
           (Some "1000"%string));
   None;
   Some (TokenPage.mkRawEvent "0xabc:1"%string 1700000000 (Some 19) (Some 4)
           (Some 7) "0xfeed"%string (Some "Buy"%string) None None)].

(** Floating-point operations that yield nothing, for running the rows. *)
Definition noFloats : TokenPage.Floats unit :=
  {| TokenPage.parseFloat := fun _ => tt;
     TokenPage.times := fun _ _ => tt;
     TokenPage.dividedBy := fun _ _ => tt;
     TokenPage.abs := fun _ => tt;
     TokenPage.tenToThe := fun _ => tt |}.

(** A response with three timestamps, a shorter series of opens and no series
    of highs. *)
Definition sampleBars : TokenPage.Bars Z :=
  TokenPage.mkBars (Some [10; 20; 30]) (Some [1; 2]) None (Some [4; 5; 6])
    (Some [7; 8; 9]).


(** ** Basic facts *)

Lemma state_eta (s : State) :
  mkState (position s) (size s) (isDragging s) (isResizing s) (isMaximized s)
    (dragStart s) (resizeStart s) (prevPosition s) (prevSize s) = s.
Proof. destruct s; reflexivity. Qed.

Lemma mode_Dragging_iff (s : State) :
  mode s = Dragging <-> isDragging s = true.
Proof.
  unfold mode; destruct (isDragging s), (isResizing s); split; congruence.
Qed.

Lemma mode_Resizing_iff (s : State) :
  mode s = Resizing <-> isDragging s = false /\ isResizing s = true.
Proof.
  unfold mode; destruct (isDragging s), (isResizing s);
    intuition congruence.
Qed.

Lemma mode_Idle_iff (s : State) :
  mode s = Idle <-> isDragging s = false /\ isResizing s = false.
Proof.
  unfold mode; destruct (isDragging s), (isResizing s);
    intuition congruence.
Qed.

(** Unfold an entry point down to the setters. *)
Ltac unfold_ops :=
  unfold step, beginDrag, beginResize, onPointerMove, endInteraction,
    toggleMaximize, dispatch,
    Hook.handleMouseMove, Hook.handleMouseUp, Hook.handleHeaderMouseDown,
    Hook.handleResizeMouseDown, Hook.handleMaximize,
    Component.handleMouseMove, Component.handleMouseUp,
    Component.handleHeaderMouseDown, Component.handleResizeMouseDown,
    Component.handleMaximize.

(** Open the snapshot, substitute the known flags and compute. *)
Ltac open_state s :=
  destruct s as [?po ?sz fd fr fm ?ds ?rs ?pp ?ps];
  simpl in *; subst; unfold_ops; simpl.

(** Both implementations compute each entry point with the same function. *)
Lemma beginDrag_impl (i : Impl) P p o s :
  beginDrag i P p o s = beginDrag HookImpl P p o s.
Proof. destruct i; reflexivity. Qed.

Lemma beginResize_impl (i : Impl) p s :
  beginResize i p s = beginResize HookImpl p s.
Proof. destruct i; reflexivity. Qed.

Lemma onPointerMove_impl (i : Impl) P p vb s :
  onPointerMove i P p vb s = onPointerMove HookImpl P p vb s.
Proof. destruct i; reflexivity. Qed.

Lemma endInteraction_impl (i : Impl) P s :
  endInteraction i P s = endInteraction HookImpl P s.
Proof. destruct i; reflexivity. Qed.

Lemma toggleMaximize_impl (i : Impl) vb s :
  toggleMaximize i vb s = toggleMaximize HookImpl vb s.
Proof. destruct i; reflexivity. Qed.

Lemma step_impl (i : Impl) P op s : step i P op s = step HookImpl P op s.
Proof.
  destruct op; simpl.
  - apply beginDrag_impl.
  - apply beginResize_impl.
  - apply onPointerMove_impl.
  - apply endInteraction_impl.
  - apply toggleMaximize_impl.
Qed.

Lemma run_impl (i : Impl) P ops :
  forall s, run i P ops s = run HookImpl P ops s.
Proof.
  induction ops as [|op rest IH]; intros s; simpl.
  - reflexivity.
  - rewrite step_impl. destruct (step HookImpl P op s) as [s1 out1].
    rewrite IH. reflexivity.
Qed.

(** What each entry point computes, flag by flag. *)

Lemma onPointerMove_dragging (i : Impl) P p vb s :
  isDragging s = true ->
  onPointerMove i P p vb s =
  (mkState
     {| x := Z.max 0 (Z.min (x p - x (dragStart s))
                        (innerWidth vb - width (size s)));
        y := Z.max 0 (Z.min (y p - y (dragStart s))
                        (innerHeight vb
                         - (if isMaximized s then 0 else height (size s)))) |}
     (size s) (isDragging s) (isResizing s) (isMaximized s) (dragStart s)
     (resizeStart s) (prevPosition s) (prevSize s), []).
Proof.
  intros Hd. rewrite onPointerMove_impl. open_state s. reflexivity.
Qed.

Lemma onPointerMove_resizing (i : Impl) P p vb s :
  isDragging s = false -> isResizing s = true ->
  onPointerMove i P p vb s =
  (mkState (position s)
     {| width := Z.min (Z.max (minWidth P)
                          (rs_width (resizeStart s) + (x p - rs_x (resizeStart s))))
                   (innerWidth vb - x (position s));
        height := Z.min (Z.max (minHeight P)
                           (rs_height (resizeStart s) + (y p - rs_y (resizeStart s))))
                    (innerHeight vb - y (position s)) |}
     (isDragging s) (isResizing s) (isMaximized s) (dragStart s)
     (resizeStart s) (prevPosition s) (prevSize s), []).
Proof.
  intros Hd Hr. rewrite onPointerMove_impl. open_state s. reflexivity.
Qed.

Lemma onPointerMove_idle (i : Impl) P p vb s :
  isDragging s = false -> isResizing s = false ->
  onPointerMove i P p vb s = (s, []).
Proof.
  intros Hd Hr. rewrite onPointerMove_impl. open_state s. reflexivity.
Qed.

Lemma beginDrag_maximized (i : Impl) P p o s :
  isMaximized s = true -> beginDrag i P p o s = (s, []).
Proof.
  intros Hm. rewrite beginDrag_impl. open_state s. reflexivity.
Qed.

Lemma beginDrag_windowed (i : Impl) P p o s :
  isMaximized s = false ->
  beginDrag i P p o s =
  (mkState (position s) (size s) true (isResizing s) (isMaximized s)
     {| x := x p - x o; y := y p - y o |}
     (resizeStart s) (prevPosition s) (prevSize s),
   if onDragStart P then [Notify DragStart] else []).
Proof.
  intros Hm. rewrite beginDrag_impl. open_state s.
  destruct (onDragStart P); reflexivity.
Qed.

Lemma beginResize_maximized (i : Impl) p s :
  isMaximized s = true -> beginResize i p s = (s, [StopPropagation]).
Proof.
  intros Hm. rewrite beginResize_impl. open_state s. reflexivity.
Qed.

Lemma beginResize_windowed (i : Impl) p s :
  isMaximized s = false ->
  beginResize i p s =
  (mkState (position s) (size s) (isDragging s) true (isMaximized s)
     (dragStart s)
     {| rs_x := x p; rs_y := y p;
        rs_width := width (size s); rs_height := height (size s) |}
     (prevPosition s) (prevSize s),
   [StopPropagation]).
Proof.
  intros Hm. rewrite beginResize_impl. open_state s. reflexivity.
Qed.

Lemma endInteraction_eq (i : Impl) P s :
  endInteraction i P s =
  (mkState (position s) (size s) false false (isMaximized s) (dragStart s)
     (resizeStart s) (prevPosition s) (prevSize s),
   if isDragging s then (if onDragEnd P then [Notify DragEnd] else []) else []).
Proof.
  rewrite endInteraction_impl. open_state s.
  destruct fd, fr, (onDragEnd P); reflexivity.
Qed.

(** While the effect is not subscribed, the two document handlers would do
    nothing anyway, in any environment. *)
Lemma unsubscribed_handlers_do_nothing P win e s :
  Hook.listening s = false ->
  dispatch (Hook.handleMouseMove P win e) s = (s, []) /\
  dispatch (Hook.handleMouseUp P) s = (s, []).
Proof.
  unfold Hook.listening. intros Hoff.
  apply orb_false_iff in Hoff. destruct Hoff as [Hd Hr].
  destruct win; open_state s; split; reflexivity.
Qed.

Lemma toggleMaximize_maximize (i : Impl) vb s :
  isMaximized s = false ->
  toggleMaximize i vb s =
  (mkState {| x := 0; y := 0 |}
     {| width := innerWidth vb; height := innerHeight vb |}
     (isDragging s) (isResizing s) true (dragStart s) (resizeStart s)
     (position s) (size s), []).
Proof.
  intros Hm. rewrite toggleMaximize_impl. open_state s. reflexivity.
Qed.

Lemma toggleMaximize_restore (i : Impl) vb s :
  isMaximized s = true ->
  toggleMaximize i vb s =
  (mkState (prevPosition s) (prevSize s) (isDragging s) (isResizing s) false
     (dragStart s) (resizeStart s) (prevPosition s) (prevSize s), []).
Proof.
  intros Hm. rewrite toggleMaximize_impl. open_state s. reflexivity.
Qed.


(** ** Pointer moves *)

(** C1.  In a state whose mode is Dragging, a pointer move sets the position
    to the pointer minus the drag anchor, clamped as
    [max 0 (min candidate upper)] with upper bound viewport width minus
    window width for [x] and viewport height minus window height (minus
    nothing when maximized) for [y]; the result is [0] whenever the upper
    bound is negative; size and mode are unchanged.  In scenario A the move to
    [(900,750)] gives position [(850,200)]. *)
Theorem drag_move_clamps_position :
  (forall (i : Impl) (P : Props) (p : Point) (vb : Viewport) (s : State),
      mode s = Dragging ->
      let s' := fst (onPointerMove i P p vb s) in
      let upperX := innerWidth vb - width (size s) in
      let upperY :=
        innerHeight vb - (if isMaximized s then 0 else height (size s)) in
      x (position s') = Z.max 0 (Z.min (x p - x (dragStart s)) upperX) /\
      y (position s') = Z.max 0 (Z.min (y p - y (dragStart s)) upperY) /\
      (upperX < 0 -> x (position s') = 0) /\
      (upperY < 0 -> y (position s') = 0) /\
      size s' = size s /\
      mode s' = mode s) /\
  (forall i : Impl,
      dragStart (scenarioA_pressed i) = {| x := 50; y := 50 |} /\
      position (fst (onPointerMove i defaultProps {| x := 900; y := 750 |}
                       viewport1280 (scenarioA_pressed i)))
      = {| x := 850; y := 200 |}).
Proof.
  split.
  - intros i P p vb s Hmode s' upperX upperY.
    apply mode_Dragging_iff in Hmode.
    subst s'. rewrite (onPointerMove_dragging i P p vb s Hmode).
    unfold mode; simpl. subst upperX upperY.
    repeat split; try reflexivity; intros Hneg; lia.
  - intros i; destruct i; split; reflexivity.
Qed.

(** Scenario A, and the same move in a viewport smaller than the window,
    where both upper bounds are negative. *)
Lemma drag_move_clamps_position_witness :
  mode (scenarioA_pressed HookImpl) = Dragging /\
  x (position (fst (onPointerMove HookImpl defaultProps {| x := 900; y := 750 |}
                      viewport1280 (scenarioA_pressed HookImpl)))) = 850 /\
  innerWidth viewport200 - width (size (scenarioA_pressed HookImpl)) < 0 /\
  x (position (fst (onPointerMove HookImpl defaultProps {| x := 900; y := 750 |}
                      viewport200 (scenarioA_pressed HookImpl)))) = 0 /\
  y (position (fst (onPointerMove HookImpl defaultProps {| x := 900; y := 750 |}
                      viewport200 (scenarioA_pressed HookImpl)))) = 0.
Proof.
  split; [reflexivity|split; [|split; [simpl; lia|]]].
  - destruct (proj1 drag_move_clamps_position HookImpl defaultProps
                {| x := 900; y := 750 |} viewport1280
                (scenarioA_pressed HookImpl) eq_refl) as [Hx _].
    rewrite Hx. reflexivity.
  - destruct (proj1 drag_move_clamps_position HookImpl defaultProps
                {| x := 900; y := 750 |} viewport200
                (scenarioA_pressed HookImpl) eq_refl)
      as (_ & _ & Hx0 & Hy0 & _).
    split; [apply Hx0 | apply Hy0]; simpl; lia.
Defined.

(** C2.  In a state whose mode is Resizing, a pointer move sets each side of
    the size to the anchored size plus the pointer's displacement from the
    anchor origin, floored at the minimum and after that capped at the
    distance from the window's top-left corner to the viewport edge; position
    and mode are unchanged.  When the cap is below the minimum the cap wins
    and the side ends below the minimum.  In scenario B the move to
    [(520,650)] gives size [(420,550)]. *)
Theorem resize_move_floors_then_caps :
  (forall (i : Impl) (P : Props) (p : Point) (vb : Viewport) (s : State),
      mode s = Resizing ->
      let s' := fst (onPointerMove i P p vb s) in
      let capW := innerWidth vb - x (position s) in
      let capH := innerHeight vb - y (position s) in
      width (size s') =
        Z.min (Z.max (minWidth P)
                 (rs_width (resizeStart s) + (x p - rs_x (resizeStart s)))) capW /\
      height (size s') =
        Z.min (Z.max (minHeight P)
                 (rs_height (resizeStart s) + (y p - rs_y (resizeStart s)))) capH /\
      (capW < minWidth P -> width (size s') = capW) /\
      (capH < minHeight P -> height (size s') = capH) /\
      position s' = position s /\
      mode s' = mode s) /\
  (forall i : Impl,
      resizeStart (scenarioB_pressed i) =
        {| rs_x := 500; rs_y := 700; rs_width := 400; rs_height := 600 |} /\
      size (fst (onPointerMove i defaultProps {| x := 520; y := 650 |}
                   viewport1280 (scenarioB_pressed i)))
      = {| width := 420; height := 550 |}).
Proof.
  split.
  - intros i P p vb s Hmode s' capW capH.
    apply mode_Resizing_iff in Hmode. destruct Hmode as [Hd Hr].
    subst s'. rewrite (onPointerMove_resizing i P p vb s Hd Hr).
    unfold mode; simpl. subst capW capH.
    repeat split; try reflexivity; intros Hlow; lia.
  - intros i; destruct i; split; reflexivity.
Qed.

(** The resize of scenario B in a viewport 350 wide, where the width ends at
    the cap 250, below the minimum 300; and in a viewport 200 high, where the
    height ends at the cap 100, below the minimum 400. *)
Lemma resize_move_floors_then_caps_witness :
  mode (scenarioB_pressed HookImpl) = Resizing /\
  width (size (fst (onPointerMove HookImpl defaultProps {| x := 520; y := 650 |}
                      viewport350 (scenarioB_pressed HookImpl)))) = 250 /\
  height (size (fst (onPointerMove HookImpl defaultProps {| x := 520; y := 650 |}
                       viewport200 (scenarioB_pressed HookImpl)))) = 100.
Proof.
  split; [reflexivity|split].
  - destruct (proj1 resize_move_floors_then_caps HookImpl defaultProps
                {| x := 520; y := 650 |} viewport350
                (scenarioB_pressed HookImpl) eq_refl) as (_ & _ & Hcap & _).
    rewrite Hcap; [reflexivity | simpl; lia].
  - destruct (proj1 resize_move_floors_then_caps HookImpl defaultProps
                {| x := 520; y := 650 |} viewport200
                (scenarioB_pressed HookImpl) eq_refl) as (_ & _ & _ & Hcap & _).
    rewrite Hcap; [reflexivity | simpl; lia].
Defined.


(** ** Starting an interaction *)

(** C3 fails as stated: in scenario A the header is pressed (mode Dragging)
    and a press on the resize handle changes the state; in scenario B the
    handle is pressed (mode Resizing) and a press on the header changes the
    state. *)
Lemma mode_exclusivity_counterexample :
  mode (scenarioA_pressed HookImpl) = Dragging /\
  fst (beginResize HookImpl {| x := 500; y := 700 |} (scenarioA_pressed HookImpl))
    <> scenarioA_pressed HookImpl /\
  mode (scenarioB_pressed HookImpl) = Resizing /\
  fst (beginDrag HookImpl defaultProps {| x := 150; y := 150 |}
         {| x := 100; y := 100 |} (scenarioB_pressed HookImpl))
    <> scenarioB_pressed HookImpl.
Proof.
  repeat split; try reflexivity; intros Heq.
  - apply (f_equal isResizing) in Heq. vm_compute in Heq. discriminate Heq.
  - apply (f_equal isDragging) in Heq. vm_compute in Heq. discriminate Heq.
Qed.

(** C3, amended.  [beginResize] and [beginDrag] are rejected only while the
    window is maximized, whatever the mode.  In a non-maximized state of mode
    Dragging, [beginResize] records the resize anchor and sets the resizing
    flag while the dragging flag stays set, so the mode stays Dragging; in a
    non-maximized state of mode Resizing, [beginDrag] records the drag anchor,
    sets the dragging flag while the resizing flag stays set, invokes
    [onDragStart], and the mode becomes Dragging. *)
Theorem begin_is_rejected_only_when_maximized :
  forall (i : Impl) (P : Props) (p o : Point) (s : State),
    (isMaximized s = true ->
     fst (beginResize i p s) = s /\ fst (beginDrag i P p o s) = s) /\
    (isMaximized s = false -> mode s = Dragging ->
     beginResize i p s =
       (mkState (position s) (size s) true true false (dragStart s)
          {| rs_x := x p; rs_y := y p;
             rs_width := width (size s); rs_height := height (size s) |}
          (prevPosition s) (prevSize s),
        [StopPropagation]) /\
     mode (fst (beginResize i p s)) = Dragging) /\
    (isMaximized s = false -> mode s = Resizing ->
     beginDrag i P p o s =
       (mkState (position s) (size s) true true false
          {| x := x p - x o; y := y p - y o |}
          (resizeStart s) (prevPosition s) (prevSize s),
        if onDragStart P then [Notify DragStart] else []) /\
     mode (fst (beginDrag i P p o s)) = Dragging).
Proof.
  intros i P p o s. split; [|split].
  - intros Hm. rewrite beginResize_maximized, beginDrag_maximized by assumption.
    split; reflexivity.
  - intros Hm Hmode. apply mode_Dragging_iff in Hmode.
    rewrite beginResize_windowed by assumption.
    unfold mode; simpl. rewrite Hm, Hmode. split; reflexivity.
  - intros Hm Hmode. apply mode_Resizing_iff in Hmode. destruct Hmode as [_ Hr].
    rewrite beginDrag_windowed by assumption.
    unfold mode; simpl. rewrite Hm, Hr. split; reflexivity.
Qed.

Lemma begin_is_rejected_only_when_maximized_witness :
  (isMaximized (scenarioC_maximized HookImpl) = true /\
   fst (beginResize HookImpl {| x := 500; y := 700 |}
          (scenarioC_maximized HookImpl)) = scenarioC_maximized HookImpl) /\
  (isMaximized (scenarioA_pressed HookImpl) = false /\
   mode (scenarioA_pressed HookImpl) = Dragging /\
   mode (fst (beginResize HookImpl {| x := 500; y := 700 |}
                (scenarioA_pressed HookImpl))) = Dragging) /\
  (isMaximized (scenarioB_pressed HookImpl) = false /\
   mode (scenarioB_pressed HookImpl) = Resizing /\
   mode (fst (beginDrag HookImpl defaultProps {| x := 150; y := 150 |}
                {| x := 100; y := 100 |} (scenarioB_pressed HookImpl))) = Dragging).
Proof.
  split; [|split].
  - split; [reflexivity|].
    apply (proj1 (begin_is_rejected_only_when_maximized HookImpl defaultProps
                    {| x := 500; y := 700 |} {| x := 100; y := 100 |}
                    (scenarioC_maximized HookImpl))).
    reflexivity.
  - split; [reflexivity|split; [reflexivity|]].
    apply (proj1 (proj2 (begin_is_rejected_only_when_maximized HookImpl
                    defaultProps {| x := 500; y := 700 |} {| x := 100; y := 100 |}
                    (scenarioA_pressed HookImpl)))); reflexivity.
  - split; [reflexivity|split; [reflexivity|]].
    apply (proj2 (proj2 (begin_is_rejected_only_when_maximized HookImpl
                    defaultProps {| x := 150; y := 150 |} {| x := 100; y := 100 |}
                    (scenarioB_pressed HookImpl)))); reflexivity.
Defined.


(** ** Maximize and restore *)

(** C4.  From a non-maximized state, a maximize toggle followed by a second
    toggle gives back the position and the size it started from and leaves
    the window non-maximized.  The second toggle does not read its viewport:
    the result is the same whatever viewport it is given, so nothing is
    clamped. *)
Theorem maximize_round_trip :
  forall (i : Impl) (vb1 vb2 : Viewport) (s : State),
    isMaximized s = false ->
    let s1 := fst (toggleMaximize i vb1 s) in
    let s2 := fst (toggleMaximize i vb2 s1) in
    isMaximized s1 = true /\
    position s1 = {| x := 0; y := 0 |} /\
    size s1 = {| width := innerWidth vb1; height := innerHeight vb1 |} /\
    position s2 = position s /\
    size s2 = size s /\
    isMaximized s2 = false.
Proof.
  intros i vb1 vb2 s Hm s1 s2. subst s2 s1.
  rewrite (toggleMaximize_maximize i vb1 s Hm). simpl.
  rewrite toggleMaximize_restore by reflexivity. simpl.
  repeat split; reflexivity.
Qed.

(** Scenario C, restored in a viewport that shrank while maximized. *)
Lemma maximize_round_trip_witness :
  isMaximized (initialState defaultProps) = false /\
  position (fst (toggleMaximize HookImpl viewport200
                   (scenarioC_maximized HookImpl))) = {| x := 100; y := 100 |} /\
  size (fst (toggleMaximize HookImpl viewport200
               (scenarioC_maximized HookImpl))) = {| width := 400; height := 600 |}.
Proof.
  split; [reflexivity|].
  destruct (maximize_round_trip HookImpl viewport1280 viewport200
              (initialState defaultProps) eq_refl)
    as (_ & _ & _ & Hpos & Hsize & _).
  split; [exact Hpos | exact Hsize].
Defined.

(** C5 fails as stated: the state of scenario A after a maximize toggle is
    reachable, maximized, and of mode Dragging; likewise scenario B and mode
    Resizing. *)
Lemma maximized_implies_idle_counterexample :
  reachable HookImpl defaultProps (scenarioA_maximized HookImpl) /\
  isMaximized (scenarioA_maximized HookImpl) = true /\
  mode (scenarioA_maximized HookImpl) = Dragging /\
  reachable HookImpl defaultProps (scenarioB_maximized HookImpl) /\
  isMaximized (scenarioB_maximized HookImpl) = true /\
  mode (scenarioB_maximized HookImpl) = Resizing.
Proof.
  split; [|split; [reflexivity|split; [reflexivity|
    split; [|split; reflexivity]]]].
  - apply (reachable_step HookImpl defaultProps (ToggleMaximize viewport1280)).
    apply (reachable_step HookImpl defaultProps
             (BeginDrag {| x := 150; y := 150 |} {| x := 100; y := 100 |})).
    apply reachable_init.
  - apply (reachable_step HookImpl defaultProps (ToggleMaximize viewport1280)).
    apply (reachable_step HookImpl defaultProps
             (BeginResize {| x := 500; y := 700 |})).
    apply reachable_init.
Qed.

(** C5, amended.  [toggleMaximize] flips [isMaximized] and leaves the mode as
    it is: invoked in mode Idle it yields mode Idle, invoked in mode Dragging
    or Resizing it yields a state that is still Dragging, resp. Resizing.
    From a maximized state of mode Idle every operation leads to a state of
    mode Idle. *)
Theorem toggleMaximize_keeps_mode :
  forall (i : Impl) (P : Props) (vb : Viewport) (s : State),
    mode (fst (toggleMaximize i vb s)) = mode s /\
    isMaximized (fst (toggleMaximize i vb s)) = negb (isMaximized s) /\
    (isMaximized s = true -> mode s = Idle ->
     forall op : Op, mode (fst (step i P op s)) = Idle).
Proof.
  intros i P vb s. split; [|split].
  - destruct (isMaximized s) eqn:Hm.
    + rewrite toggleMaximize_restore by assumption. reflexivity.
    + rewrite toggleMaximize_maximize by assumption. reflexivity.
  - destruct (isMaximized s) eqn:Hm.
    + rewrite toggleMaximize_restore by assumption. reflexivity.
    + rewrite toggleMaximize_maximize by assumption. reflexivity.
  - intros Hm Hidle op.
    pose proof Hidle as Hflags. apply mode_Idle_iff in Hflags.
    destruct Hflags as [Hd Hr].
    destruct op as [p o | p | p vb' | | vb']; simpl.
    + rewrite beginDrag_maximized by assumption. exact Hidle.
    + rewrite beginResize_maximized by assumption. exact Hidle.
    + rewrite onPointerMove_idle by assumption. exact Hidle.
    + rewrite endInteraction_eq. reflexivity.
    + rewrite toggleMaximize_restore by assumption.
      unfold mode; simpl. rewrite Hd, Hr. reflexivity.
Qed.

Lemma toggleMaximize_keeps_mode_witness :
  isMaximized (scenarioC_maximized HookImpl) = true /\
  mode (scenarioC_maximized HookImpl) = Idle /\
  mode (fst (step HookImpl defaultProps
               (BeginDrag {| x := 150; y := 150 |} {| x := 0; y := 0 |})
               (scenarioC_maximized HookImpl))) = Idle.
Proof.
  split; [reflexivity|split; [reflexivity|]].
  apply (proj2 (proj2 (toggleMaximize_keeps_mode HookImpl defaultProps
                         viewport1280 (scenarioC_maximized HookImpl))));
    reflexivity.
Defined.


(** ** The size lower bound *)

Lemma run_cons_fst (i : Impl) P op rest s :
  fst (run i P (op :: rest) s) = fst (run i P rest (fst (step i P op s))).
Proof.
  simpl. destruct (step i P op s) as [s1 out1]; simpl.
  destruct (run i P rest s1) as [s2 out2]; reflexivity.
Qed.

(** One event: the saved size stays above the minimum, and the size does
    exactly when the viewport leaves room. *)
Lemma step_size_bound (i : Impl) P op s :
  sizeAtLeastMin P (size s) -> sizeAtLeastMin P (prevSize s) ->
  (sizeAtLeastMin P (size (fst (step i P op s))) <-> leavesRoom P op s) /\
  sizeAtLeastMin P (prevSize (fst (step i P op s))).
Proof.
  unfold sizeAtLeastMin. intros Hsz Hprev.
  destruct op as [p o | p | p vb | | vb]; simpl.
  - destruct (isMaximized s) eqn:Hm.
    + rewrite beginDrag_maximized by assumption. simpl. tauto.
    + rewrite beginDrag_windowed by assumption. simpl. tauto.
  - destruct (isMaximized s) eqn:Hm.
    + rewrite beginResize_maximized by assumption. simpl. tauto.
    + rewrite beginResize_windowed by assumption. simpl. tauto.
  - destruct (isDragging s) eqn:Hd; [|destruct (isResizing s) eqn:Hr].
    + rewrite onPointerMove_dragging by assumption. simpl.
      unfold mode. rewrite Hd. intuition congruence.
    + rewrite onPointerMove_resizing by assumption. simpl.
      unfold mode. rewrite Hd, Hr. intuition lia.
    + rewrite onPointerMove_idle by assumption.
      unfold mode. rewrite Hd, Hr. intuition congruence.
  - rewrite endInteraction_eq. simpl. tauto.
  - destruct (isMaximized s) eqn:Hm.
    + rewrite toggleMaximize_restore by assumption. simpl.
      intuition congruence.
    + rewrite toggleMaximize_maximize by assumption. simpl. tauto.
Qed.

Lemma session_size_bound (i : Impl) P ops :
  forall s,
    sizeAtLeastMin P (size s) -> sizeAtLeastMin P (prevSize s) ->
    roomySession i P ops s ->
    sizeAtLeastMin P (size (fst (run i P ops s))).
Proof.
  induction ops as [|op rest IH]; intros s Hsz Hprev Hroom.
  - exact Hsz.
  - rewrite run_cons_fst. destruct Hroom as [Hop Hrest].
    destruct (step_size_bound i P op s Hsz Hprev) as [Hiff Hprev'].
    apply IH; [apply Hiff; exact Hop | exact Hprev' | exact Hrest].
Qed.

(** C6 fails as stated: maximizing the default window in a 200 by 200
    viewport reaches a state whose width is 200, below the minimum 300; and
    the resize move of scenario B in a viewport 350 wide reaches a state whose
    width is 250. *)
Lemma size_lower_bound_counterexample :
  reachable HookImpl defaultProps
    (fst (toggleMaximize HookImpl viewport200 (initialState defaultProps))) /\
  width (size (fst (toggleMaximize HookImpl viewport200
                      (initialState defaultProps))))
    < minWidth defaultProps /\
  reachable HookImpl defaultProps
    (fst (onPointerMove HookImpl defaultProps {| x := 520; y := 650 |}
            viewport350 (scenarioB_pressed HookImpl))) /\
  width (size (fst (onPointerMove HookImpl defaultProps {| x := 520; y := 650 |}
                      viewport350 (scenarioB_pressed HookImpl))))
    < minWidth defaultProps.
Proof.
  split; [|split; [reflexivity|split; [|reflexivity]]].
  - apply (reachable_step HookImpl defaultProps (ToggleMaximize viewport200)).
    apply reachable_init.
  - apply (reachable_step HookImpl defaultProps
             (OnPointerMove {| x := 520; y := 650 |} viewport350)).
    apply (reachable_step HookImpl defaultProps
             (BeginResize {| x := 500; y := 700 |})).
    apply reachable_init.
Qed.

(** C6, amended.  When the size and the saved size are at least the minimum,
    an operation leaves the size at least the minimum exactly when its
    viewport leaves room for the minimum: for a pointer move in mode Resizing,
    viewport width minus [position.x] and viewport height minus [position.y]
    are at least the minimum; for a toggle that maximizes, the viewport
    bounds are.  Hence, from an initial size at least the minimum, the bound
    holds after every session all of whose viewports leave room. *)
Theorem size_lower_bound_needs_room :
  (forall (i : Impl) (P : Props) (op : Op) (s : State),
      sizeAtLeastMin P (size s) -> sizeAtLeastMin P (prevSize s) ->
      (sizeAtLeastMin P (size (fst (step i P op s))) <-> leavesRoom P op s)) /\
  (forall (i : Impl) (P : Props) (ops : list Op),
      sizeAtLeastMin P (initialSize P) ->
      roomySession i P ops (initialState P) ->
      sizeAtLeastMin P (size (fst (run i P ops (initialState P))))).
Proof.
  split.
  - intros i P op s Hsz Hprev. apply (step_size_bound i P op s Hsz Hprev).
  - intros i P ops Hinit Hroom.
    apply session_size_bound; assumption.
Qed.

(** Scenario B followed by a maximize and a restore, in the 1280 by 800
    viewport. *)
Lemma size_lower_bound_needs_room_witness :
  sizeAtLeastMin defaultProps (initialSize defaultProps) /\
  sizeAtLeastMin defaultProps
    (size (fst (run HookImpl defaultProps
                  [BeginResize {| x := 500; y := 700 |};
                   OnPointerMove {| x := 520; y := 650 |} viewport1280;
                   EndInteraction;
                   ToggleMaximize viewport1280;
                   ToggleMaximize viewport1280]
                  (initialState defaultProps)))).
Proof.
  assert (Hinit : sizeAtLeastMin defaultProps (initialSize defaultProps))
    by (unfold sizeAtLeastMin; simpl; lia).
  split; [exact Hinit|].
  apply (proj2 size_lower_bound_needs_room HookImpl defaultProps); [exact Hinit|].
  simpl. repeat split; lia.
Defined.

(** ** Releasing the pointer *)

(** C7.  Releasing twice gives the state that releasing once gives, and the
    second release has no effect of any kind.  Released from mode Dragging the
    [onDragEnd] callback is invoked, once, and the mode is Idle; released from
    mode Resizing the mode is Idle and nothing is invoked; released from mode
    Idle the state is unchanged and nothing is invoked. *)
Theorem endInteraction_idempotent :
  forall (i : Impl) (P : Props) (s : State),
    let r1 := endInteraction i P s in
    let r2 := endInteraction i P (fst r1) in
    fst r2 = fst r1 /\
    snd r2 = [] /\
    mode (fst r1) = Idle /\
    (mode s = Dragging ->
     snd r1 = if onDragEnd P then [Notify DragEnd] else []) /\
    (mode s = Resizing -> snd r1 = []) /\
    (mode s = Idle -> r1 = (s, [])).
Proof.
  intros i P s r1 r2. subst r2 r1.
  rewrite (endInteraction_eq i P s). simpl.
  rewrite endInteraction_eq. simpl.
  split; [reflexivity|split; [reflexivity|split; [reflexivity|]]].
  split; [|split].
  - intros Hmode. apply mode_Dragging_iff in Hmode. rewrite Hmode. reflexivity.
  - intros Hmode. apply mode_Resizing_iff in Hmode. destruct Hmode as [Hd _].
    rewrite Hd. reflexivity.
  - intros Hmode. apply mode_Idle_iff in Hmode. destruct Hmode as [Hd Hr].
    rewrite Hd. rewrite <- Hd at 1. rewrite <- Hr at 1.
    rewrite state_eta. reflexivity.
Qed.

(** Scenario A with the callbacks supplied: the release invokes [onDragEnd],
    once.  Scenario B: the release invokes nothing.  The initial state: the
    release changes nothing. *)
Lemma endInteraction_idempotent_witness :
  (mode (scenarioA_notified HookImpl) = Dragging /\
   snd (endInteraction HookImpl notifiedProps (scenarioA_notified HookImpl))
     = [Notify DragEnd]) /\
  (mode (scenarioB_pressed HookImpl) = Resizing /\
   snd (endInteraction HookImpl notifiedProps (scenarioB_pressed HookImpl)) = []) /\
  (mode (initialState notifiedProps) = Idle /\
   endInteraction HookImpl notifiedProps (initialState notifiedProps)
     = (initialState notifiedProps, [])).
Proof.
  split; [|split]; (split; [reflexivity|]).
  - destruct (endInteraction_idempotent HookImpl notifiedProps
                (scenarioA_notified HookImpl)) as (_ & _ & _ & Hdrag & _).
    rewrite Hdrag; reflexivity.
  - destruct (endInteraction_idempotent HookImpl notifiedProps
                (scenarioB_pressed HookImpl)) as (_ & _ & _ & _ & Hres & _).
    apply Hres; reflexivity.
  - destruct (endInteraction_idempotent HookImpl notifiedProps
                (initialState notifiedProps)) as (_ & _ & _ & _ & _ & Hidle).
    apply Hidle; reflexivity.
Defined.

(** ** Calls out of mode *)

(** C8.  A pointer move in mode Idle returns the state unchanged, with no
    effect.  While maximized, [beginDrag] returns the state unchanged with no
    effect, and [beginResize] returns the state unchanged and invokes no
    callback (it stops the propagation of the press, nothing else). *)
Theorem out_of_mode_calls_are_absorbed :
  forall (i : Impl) (P : Props) (s : State),
    (mode s = Idle ->
     forall (p : Point) (vb : Viewport), onPointerMove i P p vb s = (s, [])) /\
    (isMaximized s = true ->
     forall p o : Point, beginDrag i P p o s = (s, [])) /\
    (isMaximized s = true ->
     forall p : Point,
       fst (beginResize i p s) = s /\
       notifications (snd (beginResize i p s)) = []).
Proof.
  intros i P s. split; [|split].
  - intros Hmode p vb. apply mode_Idle_iff in Hmode. destruct Hmode as [Hd Hr].
    apply onPointerMove_idle; assumption.
  - intros Hm p o. apply beginDrag_maximized; assumption.
  - intros Hm p. rewrite beginResize_maximized by assumption.
    split; reflexivity.
Qed.

Lemma out_of_mode_calls_are_absorbed_witness :
  (mode (initialState defaultProps) = Idle /\
   onPointerMove HookImpl defaultProps {| x := 900; y := 750 |} viewport1280
     (initialState defaultProps) = (initialState defaultProps, [])) /\
  (isMaximized (scenarioC_maximized HookImpl) = true /\
   beginDrag HookImpl notifiedProps {| x := 150; y := 150 |} {| x := 0; y := 0 |}
     (scenarioC_maximized HookImpl) = (scenarioC_maximized HookImpl, []) /\
   notifications (snd (beginResize HookImpl {| x := 500; y := 700 |}
                         (scenarioC_maximized HookImpl))) = []).
Proof.
  split.
  - split; [reflexivity|].
    apply (proj1 (out_of_mode_calls_are_absorbed HookImpl defaultProps
                    (initialState defaultProps))).
    reflexivity.
  - split; [reflexivity|split].
    + apply (proj1 (proj2 (out_of_mode_calls_are_absorbed HookImpl notifiedProps
                             (scenarioC_maximized HookImpl)))).
      reflexivity.
    + apply (proj2 (proj2 (out_of_mode_calls_are_absorbed HookImpl defaultProps
                             (scenarioC_maximized HookImpl)))).
      reflexivity.
Defined.

(** ** The saved geometry *)

(** C9.  The saved position and the saved size change in one place only: a
    toggle in a non-maximized state stores the current position and size in
    them.  [beginDrag], [beginResize], [onPointerMove], [endInteraction] and a
    toggle in a maximized state leave both as they are. *)
Theorem saved_geometry_frame :
  forall (i : Impl) (P : Props) (op : Op) (s : State),
    (prevPosition (fst (step i P op s)), prevSize (fst (step i P op s))) =
    match op with
    | ToggleMaximize _ =>
      if isMaximized s then (prevPosition s, prevSize s)
      else (position s, size s)
    | BeginDrag _ _ | BeginResize _ | OnPointerMove _ _ | EndInteraction =>
      (prevPosition s, prevSize s)
    end.
Proof.
  intros i P op s.
  destruct op as [p o | p | p vb | | vb]; simpl.
  - destruct (isMaximized s) eqn:Hm.
    + rewrite beginDrag_maximized by assumption. reflexivity.
    + rewrite beginDrag_windowed by assumption. reflexivity.
  - destruct (isMaximized s) eqn:Hm.
    + rewrite beginResize_maximized by assumption. reflexivity.
    + rewrite beginResize_windowed by assumption. reflexivity.
  - destruct (isDragging s) eqn:Hd; [|destruct (isResizing s) eqn:Hr].
    + rewrite onPointerMove_dragging by assumption. reflexivity.
    + rewrite onPointerMove_resizing by assumption. reflexivity.
    + rewrite onPointerMove_idle by assumption. reflexivity.
  - rewrite endInteraction_eq. reflexivity.
  - destruct (isMaximized s) eqn:Hm.
    + rewrite toggleMaximize_restore by assumption. reflexivity.
    + rewrite toggleMaximize_maximize by assumption. reflexivity.
Qed.

(** ** The two implementations *)

(** C10.  Each of the five handlers of the component computes, in every
    environment and on every snapshot, the same committed state and the same
    effects as the handler of the hook; so do the five entry points, and so
    does every session. *)
Theorem hook_and_component_agree :
  (forall P win e s,
      dispatch (Component.handleMouseMove P win e) s
      = dispatch (Hook.handleMouseMove P win e) s) /\
  (forall P s,
      dispatch (Component.handleMouseUp P) s = dispatch (Hook.handleMouseUp P) s) /\
  (forall P rect e s,
      dispatch (Component.handleHeaderMouseDown P rect e) s
      = dispatch (Hook.handleHeaderMouseDown P rect e) s) /\
  (forall e s,
      dispatch (Component.handleResizeMouseDown e) s
      = dispatch (Hook.handleResizeMouseDown e) s) /\
  (forall win s,
      dispatch (Component.handleMaximize win) s
      = dispatch (Hook.handleMaximize win) s) /\
  (forall s, Component.listening s = Hook.listening s) /\
  (forall P op s, step ComponentImpl P op s = step HookImpl P op s) /\
  (forall P ops s, run ComponentImpl P ops s = run HookImpl P ops s).
Proof.
  split; [intros P win e s; reflexivity|].
  split; [intros P s; reflexivity|].
  split; [intros P rect e s; reflexivity|].
  split; [intros e s; reflexivity|].
  split; [intros win s; reflexivity|].
  split; [intros s; reflexivity|].
  split.
  - intros P op s. apply step_impl.
  - intros P ops s. apply run_impl.
Qed.


(** ** Further properties of the controller *)

Lemma run_app (i : Impl) P ops1 :
  forall ops2 s,
    run i P (ops1 ++ ops2) s =
    (fst (run i P ops2 (fst (run i P ops1 s))),
     snd (run i P ops1 s) ++ snd (run i P ops2 (fst (run i P ops1 s)))).
Proof.
  induction ops1 as [|op rest IH]; intros ops2 s; simpl.
  - destruct (run i P ops2 s); reflexivity.
  - destruct (step i P op s) as [s1 out1]. rewrite IH.
    destruct (run i P rest s1) as [s2 out2]; simpl.
    rewrite app_assoc. reflexivity.
Qed.

Lemma run_single (i : Impl) P op s : run i P [op] s = step i P op s.
Proof.
  simpl. destruct (step i P op s) as [s1 out1]. rewrite app_nil_r. reflexivity.
Qed.

(** A pointer move forgets the pointer move before it. *)
Lemma onPointerMove_overwrites (i : Impl) P p1 vb1 p2 vb2 s :
  onPointerMove i P p2 vb2 (fst (onPointerMove i P p1 vb1 s))
  = onPointerMove i P p2 vb2 s.
Proof.
  destruct (isDragging s) eqn:Hd; [|destruct (isResizing s) eqn:Hr].
  - rewrite (onPointerMove_dragging i P p1 vb1 s Hd).
    rewrite (onPointerMove_dragging i P p2 vb2 s Hd).
    rewrite onPointerMove_dragging by exact Hd. reflexivity.
  - rewrite (onPointerMove_resizing i P p1 vb1 s Hd Hr).
    rewrite (onPointerMove_resizing i P p2 vb2 s Hd Hr).
    rewrite onPointerMove_resizing by assumption. reflexivity.
  - rewrite (onPointerMove_idle i P p1 vb1 s Hd Hr). reflexivity.
Qed.

Lemma onPointerMove_silent (i : Impl) P p vb s :
  snd (onPointerMove i P p vb s) = [].
Proof.
  destruct (isDragging s) eqn:Hd; [|destruct (isResizing s) eqn:Hr].
  - rewrite onPointerMove_dragging by assumption. reflexivity.
  - rewrite onPointerMove_resizing by assumption. reflexivity.
  - rewrite onPointerMove_idle by assumption. reflexivity.
Qed.

(** X1.  While dragging, the position never becomes negative; a window that
    is no wider than the viewport ends with its right edge inside it, and a
    non-maximized window that is no taller than the viewport ends with its
    bottom edge inside it.  A maximized window can be dragged down until its
    top edge is at the bottom of the viewport. *)
Theorem drag_keeps_window_in_viewport :
  forall (i : Impl) (P : Props) (p : Point) (vb : Viewport) (s : State),
    mode s = Dragging ->
    let s' := fst (onPointerMove i P p vb s) in
    0 <= x (position s') /\
    0 <= y (position s') /\
    (width (size s) <= innerWidth vb ->
     x (position s') + width (size s') <= innerWidth vb) /\
    (isMaximized s = false -> height (size s) <= innerHeight vb ->
     y (position s') + height (size s') <= innerHeight vb) /\
    (isMaximized s = true -> 0 <= innerHeight vb ->
     y (position s') <= innerHeight vb).
Proof.
  intros i P p vb s Hmode s'. apply mode_Dragging_iff in Hmode.
  subst s'. rewrite (onPointerMove_dragging i P p vb s Hmode). simpl.
  split; [lia|split; [lia|split; [lia|split]]].
  - intros Hm Hfit. rewrite Hm. lia.
  - intros Hm Hpos. rewrite Hm. lia.
Qed.

(** Scenario A: the window is dragged towards the bottom right corner and
    stops with both edges on the viewport's. *)
Lemma drag_keeps_window_in_viewport_witness :
  mode (scenarioA_pressed HookImpl) = Dragging /\
  x (position (fst (onPointerMove HookImpl defaultProps {| x := 2000; y := 2000 |}
                      viewport1280 (scenarioA_pressed HookImpl))))
  + width (size (fst (onPointerMove HookImpl defaultProps {| x := 2000; y := 2000 |}
                       viewport1280 (scenarioA_pressed HookImpl))))
  <= innerWidth viewport1280.
Proof.
  split; [reflexivity|].
  destruct (drag_keeps_window_in_viewport HookImpl defaultProps
              {| x := 2000; y := 2000 |} viewport1280
              (scenarioA_pressed HookImpl) eq_refl) as (_ & _ & Hright & _).
  apply Hright. simpl. lia.
Defined.

(** X2.  While resizing, the right and the bottom edge of the window never
    pass the viewport's, whatever the pointer, the anchor and the minimum
    size are. *)
Theorem resize_keeps_edges_in_viewport :
  forall (i : Impl) (P : Props) (p : Point) (vb : Viewport) (s : State),
    mode s = Resizing ->
    let s' := fst (onPointerMove i P p vb s) in
    x (position s') + width (size s') <= innerWidth vb /\
    y (position s') + height (size s') <= innerHeight vb.
Proof.
  intros i P p vb s Hmode s'. apply mode_Resizing_iff in Hmode.
  destruct Hmode as [Hd Hr].
  subst s'. rewrite (onPointerMove_resizing i P p vb s Hd Hr). simpl.
  split; lia.
Qed.

Lemma resize_keeps_edges_in_viewport_witness :
  mode (scenarioB_pressed HookImpl) = Resizing /\
  x (position (fst (onPointerMove HookImpl defaultProps {| x := 5000; y := 5000 |}
                      viewport1280 (scenarioB_pressed HookImpl))))
  + width (size (fst (onPointerMove HookImpl defaultProps {| x := 5000; y := 5000 |}
                       viewport1280 (scenarioB_pressed HookImpl))))
  <= innerWidth viewport1280.
Proof.
  split; [reflexivity|].
  apply (resize_keeps_edges_in_viewport HookImpl defaultProps
           {| x := 5000; y := 5000 |} viewport1280
           (scenarioB_pressed HookImpl) eq_refl).
Defined.

(** X3.  Pointer moves do not accumulate: after any number of pointer moves
    the state is the one that the last of them alone leads to, and no move
    has an outward effect. *)
Theorem pointer_moves_overwrite :
  forall (i : Impl) (P : Props) (moves : list Op) (p : Point) (vb : Viewport)
         (s : State),
    forallb isPointerMove moves = true ->
    run i P (moves ++ [OnPointerMove p vb]) s = onPointerMove i P p vb s.
Proof.
  intros i P moves. induction moves as [|op rest IH]; intros p vb s Hall.
  - apply run_single.
  - simpl in Hall. apply andb_true_iff in Hall. destruct Hall as [Hop Hrest].
    destruct op as [? ? | ? | p1 vb1 | | ?]; try discriminate Hop.
    change (run i P ((OnPointerMove p1 vb1 :: rest) ++ [OnPointerMove p vb]) s)
      with (let '(s1, out1) := onPointerMove i P p1 vb1 s in
            let '(s2, out2) := run i P (rest ++ [OnPointerMove p vb]) s1 in
            (s2, out1 ++ out2)).
    pose proof (onPointerMove_silent i P p1 vb1 s) as Hsilent.
    pose proof (onPointerMove_overwrites i P p1 vb1 p vb s) as Hover.
    destruct (onPointerMove i P p1 vb1 s) as [s1 out1]. simpl in *.
    rewrite (IH p vb s1 Hrest). rewrite Hover. subst out1.
    destruct (onPointerMove i P p vb s); reflexivity.
Qed.

Lemma pointer_moves_overwrite_witness :
  run HookImpl defaultProps
    ([OnPointerMove {| x := 300; y := 200 |} viewport1280;
      OnPointerMove {| x := 20; y := 900 |} viewport200]
     ++ [OnPointerMove {| x := 900; y := 750 |} viewport1280])
    (scenarioA_pressed HookImpl)
  = onPointerMove HookImpl defaultProps {| x := 900; y := 750 |} viewport1280
      (scenarioA_pressed HookImpl).
Proof.
  apply (pointer_moves_overwrite HookImpl defaultProps
           [OnPointerMove {| x := 300; y := 200 |} viewport1280;
            OnPointerMove {| x := 20; y := 900 |} viewport200]).
  reflexivity.
Defined.

(** X4.  The grab point stays under the cursor: after a press on the header
    of a non-maximized window whose top-left corner is at [o], a move of the
    pointer by [d] puts the window at [o] displaced by [d], as long as that
    position lies within the clamping range. *)
Theorem drag_follows_pointer :
  forall (i : Impl) (P : Props) (p o d : Point) (vb : Viewport) (s : State),
    isMaximized s = false ->
    0 <= x o + x d <= innerWidth vb - width (size s) ->
    0 <= y o + y d <= innerHeight vb - height (size s) ->
    position (fst (onPointerMove i P (translate p d) vb
                     (fst (beginDrag i P p o s))))
    = translate o d.
Proof.
  intros i P p o d vb s Hm Hx Hy.
  rewrite (beginDrag_windowed i P p o s Hm). simpl.
  rewrite onPointerMove_dragging by reflexivity. simpl.
  unfold translate. rewrite Hm. f_equal; lia.
Qed.

Lemma drag_follows_pointer_witness :
  position (fst (onPointerMove HookImpl defaultProps
                   (translate {| x := 150; y := 150 |} {| x := 30; y := -40 |})
                   viewport1280
                   (fst (beginDrag HookImpl defaultProps {| x := 150; y := 150 |}
                           {| x := 100; y := 100 |} (initialState defaultProps)))))
  = {| x := 130; y := 60 |}.
Proof.
  apply (drag_follows_pointer HookImpl defaultProps {| x := 150; y := 150 |}
           {| x := 100; y := 100 |} {| x := 30; y := -40 |} viewport1280
           (initialState defaultProps)).
  - reflexivity.
  - simpl; lia.
  - simpl; lia.
Defined.

(** X5.  The size follows the pointer: after a press on the resize handle of
    a non-maximized window that is not being dragged, a move of the pointer by
    [d] changes the size by [d], as long as the new size is at least the
    minimum and the window stays within the viewport. *)
Theorem resize_follows_pointer :
  forall (i : Impl) (P : Props) (p d : Point) (vb : Viewport) (s : State),
    isMaximized s = false ->
    isDragging s = false ->
    minWidth P <= width (size s) + x d <= innerWidth vb - x (position s) ->
    minHeight P <= height (size s) + y d <= innerHeight vb - y (position s) ->
    size (fst (onPointerMove i P (translate p d) vb (fst (beginResize i p s))))
    = {| width := width (size s) + x d; height := height (size s) + y d |}.
Proof.
  intros i P p d vb s Hm Hd Hw Hh.
  rewrite (beginResize_windowed i p s Hm). simpl.
  rewrite onPointerMove_resizing by (simpl; auto). simpl.
  f_equal; lia.
Qed.

Lemma resize_follows_pointer_witness :
  size (fst (onPointerMove HookImpl defaultProps
               (translate {| x := 500; y := 700 |} {| x := 20; y := -50 |})
               viewport1280
               (fst (beginResize HookImpl {| x := 500; y := 700 |}
                       (initialState defaultProps)))))
  = {| width := 420; height := 550 |}.
Proof.
  apply (resize_follows_pointer HookImpl defaultProps {| x := 500; y := 700 |}
           {| x := 20; y := -50 |} viewport1280 (initialState defaultProps)).
  - reflexivity.
  - reflexivity.
  - simpl; lia.
  - simpl; lia.
Defined.

(** Operations other than the toggle keep the maximized flag and the saved
    geometry. *)
Lemma step_keeps_saved (i : Impl) P op s :
  isToggle op = false ->
  isMaximized (fst (step i P op s)) = isMaximized s /\
  prevPosition (fst (step i P op s)) = prevPosition s /\
  prevSize (fst (step i P op s)) = prevSize s.
Proof.
  intros Hop. destruct op as [p o | p | p vb | | vb]; simpl;
    try discriminate Hop.
  - destruct (isMaximized s) eqn:Hm.
    + rewrite beginDrag_maximized by assumption. auto.
    + rewrite beginDrag_windowed by assumption. auto.
  - destruct (isMaximized s) eqn:Hm.
    + rewrite beginResize_maximized by assumption. auto.
    + rewrite beginResize_windowed by assumption. auto.
  - destruct (isDragging s) eqn:Hd; [|destruct (isResizing s) eqn:Hr].
    + rewrite onPointerMove_dragging by assumption. auto.
    + rewrite onPointerMove_resizing by assumption. auto.
    + rewrite onPointerMove_idle by assumption. auto.
  - rewrite endInteraction_eq. auto.
Qed.

Lemma run_keeps_saved (i : Impl) P ops :
  forall s,
    forallb (fun op => negb (isToggle op)) ops = true ->
    isMaximized (fst (run i P ops s)) = isMaximized s /\
    prevPosition (fst (run i P ops s)) = prevPosition s /\
    prevSize (fst (run i P ops s)) = prevSize s.
Proof.
  induction ops as [|op rest IH]; intros s Hall.
  - simpl. auto.
  - simpl in Hall. apply andb_true_iff in Hall. destruct Hall as [Hop Hrest].
    apply negb_true_iff in Hop.
    rewrite run_cons_fst.
    destruct (IH (fst (step i P op s)) Hrest) as (Hm & Hpp & Hps).
    destruct (step_keeps_saved i P op s Hop) as (Hm' & Hpp' & Hps').
    rewrite Hm, Hpp, Hps. auto.
Qed.

(** X6.  Whatever happens while the window is maximized, short of another
    toggle, the restore gives back the position and the size the window had
    when it was maximized: presses, pointer moves and releases in between
    change what is displayed, not what is restored. *)
Theorem restore_survives_interactions :
  forall (i : Impl) (P : Props) (vb1 vb2 : Viewport) (ops : list Op) (s : State),
    isMaximized s = false ->
    forallb (fun op => negb (isToggle op)) ops = true ->
    let maximized := fst (toggleMaximize i vb1 s) in
    let restored := fst (toggleMaximize i vb2 (fst (run i P ops maximized))) in
    position restored = position s /\
    size restored = size s /\
    isMaximized restored = false.
Proof.
  intros i P vb1 vb2 ops s Hm Hops maximized restored.
  destruct (run_keeps_saved i P ops maximized Hops) as (Hm' & Hpp & Hps).
  subst restored.
  assert (Hmax : isMaximized maximized = true /\
                 prevPosition maximized = position s /\
                 prevSize maximized = size s).
  { subst maximized. rewrite (toggleMaximize_maximize i vb1 s Hm). simpl. auto. }
  destruct Hmax as (Hmax & Hsp & Hss).
  rewrite toggleMaximize_restore by congruence. simpl.
  repeat split; congruence.
Qed.

(** Scenario A maximized while the header is pressed, dragged as a maximized
    window, released and restored: the geometry is the initial one. *)
Lemma restore_survives_interactions_witness :
  position (fst (toggleMaximize HookImpl viewport200
                   (fst (run HookImpl defaultProps
                           [OnPointerMove {| x := 900; y := 750 |} viewport1280;
                            EndInteraction;
                            BeginDrag {| x := 5; y := 5 |} {| x := 0; y := 0 |}]
                           (fst (toggleMaximize HookImpl viewport1280
                                   (scenarioA_pressed HookImpl)))))))
  = {| x := 100; y := 100 |}.
Proof.
  apply (restore_survives_interactions HookImpl defaultProps viewport1280
           viewport200
           [OnPointerMove {| x := 900; y := 750 |} viewport1280;
            EndInteraction;
            BeginDrag {| x := 5; y := 5 |} {| x := 0; y := 0 |}]
           (scenarioA_pressed HookImpl)); reflexivity.
Defined.

(** Invocations add up over concatenated effects. *)
Lemma invocations_app n out1 out2 :
  invocations n (out1 ++ out2) = (invocations n out1 + invocations n out2)%nat.
Proof.
  unfold invocations. rewrite filter_app, length_app. reflexivity.
Qed.

(** One event: a drag can only be closed if it was open or has been
    announced. *)
Lemma step_drag_balance (i : Impl) P op s :
  onDragStart P = true ->
  (invocations DragEnd (snd (step i P op s)) + dragsOpen (fst (step i P op s))
   <= invocations DragStart (snd (step i P op s)) + dragsOpen s)%nat.
Proof.
  intros Hcb. unfold dragsOpen.
  destruct op as [p o | p | p vb | | vb]; simpl.
  - destruct (isMaximized s) eqn:Hm.
    + rewrite beginDrag_maximized by assumption. simpl. lia.
    + rewrite beginDrag_windowed by assumption. rewrite Hcb. simpl.
      destruct (isDragging s); simpl; lia.
  - destruct (isMaximized s) eqn:Hm.
    + rewrite beginResize_maximized by assumption. simpl. lia.
    + rewrite beginResize_windowed by assumption. simpl. lia.
  - destruct (isDragging s) eqn:Hd; [|destruct (isResizing s) eqn:Hr].
    + rewrite onPointerMove_dragging by assumption. simpl. rewrite Hd. lia.
    + rewrite onPointerMove_resizing by assumption. simpl. rewrite Hd. lia.
    + rewrite onPointerMove_idle by assumption. simpl. rewrite Hd. lia.
  - rewrite endInteraction_eq.
    destruct (isDragging s), (onDragEnd P); simpl; lia.
  - destruct (isMaximized s) eqn:Hm.
    + rewrite toggleMaximize_restore by assumption. simpl. lia.
    + rewrite toggleMaximize_maximize by assumption. simpl. lia.
Qed.

Lemma run_drag_balance (i : Impl) P ops :
  onDragStart P = true ->
  forall s,
    (invocations DragEnd (snd (run i P ops s)) + dragsOpen (fst (run i P ops s))
     <= invocations DragStart (snd (run i P ops s)) + dragsOpen s)%nat.
Proof.
  intros Hcb. induction ops as [|op rest IH]; intros s.
  - simpl. lia.
  - simpl. pose proof (step_drag_balance i P op s Hcb) as Hstep.
    destruct (step i P op s) as [s1 out1]. simpl in Hstep.
    pose proof (IH s1) as Hrest.
    destruct (run i P rest s1) as [s2 out2]. simpl in *.
    rewrite !invocations_app. lia.
Qed.

(** X7.  When the [onDragStart] callback is supplied, no session invokes
    [onDragEnd] more often than [onDragStart]; while a drag is in progress,
    [onDragStart] has been invoked strictly more often. *)
Theorem drag_end_never_outnumbers_drag_start :
  forall (i : Impl) (P : Props) (ops : list Op),
    onDragStart P = true ->
    (invocations DragEnd (snd (run i P ops (initialState P)))
     + dragsOpen (fst (run i P ops (initialState P)))
     <= invocations DragStart (snd (run i P ops (initialState P))))%nat.
Proof.
  intros i P ops Hcb.
  pose proof (run_drag_balance i P ops Hcb (initialState P)) as Hbal.
  unfold dragsOpen at 2 in Hbal. simpl in Hbal. lia.
Qed.

Lemma drag_end_never_outnumbers_drag_start_witness :
  onDragStart notifiedProps = true /\
  (invocations DragEnd (snd (run HookImpl notifiedProps sampleSession
                               (initialState notifiedProps)))
   + dragsOpen (fst (run HookImpl notifiedProps sampleSession
                       (initialState notifiedProps)))
   <= invocations DragStart (snd (run HookImpl notifiedProps sampleSession
                                    (initialState notifiedProps))))%nat.
Proof.
  split; [reflexivity|].
  apply (drag_end_never_outnumbers_drag_start HookImpl notifiedProps
           sampleSession).
  reflexivity.
Defined.

(** X8.  The subscription of the document listeners loses nothing: a
    [mousemove] or [mouseup] delivered only while [isDragging || isResizing]
    has the result it would have if the handler were always called; and after
    a [mouseup] the listeners are unsubscribed. *)
Theorem listener_gate_is_transparent :
  forall (i : Impl) (P : Props) (win : option Viewport) (e : MouseEvent)
         (s : State),
    documentMouseMove i P win e s
      = dispatch (Hook.handleMouseMove P win e) s /\
    documentMouseUp i P s = dispatch (Hook.handleMouseUp P) s /\
    listening i (fst (documentMouseUp i P s)) = false.
Proof.
  intros i P win e s.
  assert (Hup : dispatch (Hook.handleMouseUp P) s = endInteraction HookImpl P s)
    by reflexivity.
  unfold documentMouseMove, documentMouseUp.
  destruct (listening i s) eqn:Hl.
  - split; [destruct i; reflexivity|].
    split; [destruct i; reflexivity|].
    replace (match i with
             | HookImpl => dispatch (Hook.handleMouseUp P) s
             | ComponentImpl => dispatch (Component.handleMouseUp P) s
             end) with (endInteraction HookImpl P s) by (destruct i; reflexivity).
    rewrite endInteraction_eq. destruct i; reflexivity.
  - assert (Hl' : Hook.listening s = false) by (destruct i; exact Hl).
    destruct (unsubscribed_handlers_do_nothing P win e s Hl') as [Hmove Hrel].
    rewrite Hmove, Hrel. simpl. auto.
Qed.


(** ** Preset buttons *)

(** X9.  Toggling a preset with nothing selected selects it; toggling the
    selected preset clears the selection; a third click on one preset has the
    effect of the first; and a click on a preset with a different string
    selects that preset in one step, whatever was selected before. *)
Theorem togglePreset_laws :
  forall (T : Type) (toString : T -> String.string) (value : String.string)
         (p q : T),
    TogglePreset.togglePreset toString (TogglePreset.clearPreset value) p
      = toString p /\
    TogglePreset.togglePreset toString
      (TogglePreset.setPreset toString value p) p = String.EmptyString /\
    TogglePreset.togglePreset toString
      (TogglePreset.togglePreset toString
         (TogglePreset.togglePreset toString value p) p) p
      = TogglePreset.togglePreset toString value p /\
    (toString q <> toString p ->
     TogglePreset.togglePreset toString
       (TogglePreset.togglePreset toString value p) q = toString q).
Proof.
  intros T toString value p q.
  unfold TogglePreset.togglePreset, TogglePreset.clearPreset,
    TogglePreset.setPreset; cbv zeta.
  repeat split.
  - destruct (String.eqb_spec String.EmptyString (toString p)); congruence.
  - rewrite String.eqb_refl. reflexivity.
  - destruct (String.eqb_spec value (toString p)) as [Hsel|Hsel].
    + destruct (String.eqb_spec String.EmptyString (toString p)) as [He|He].
      * rewrite <- He. reflexivity.
      * rewrite String.eqb_refl. reflexivity.
    + rewrite String.eqb_refl.
      destruct (String.eqb_spec String.EmptyString (toString p)); congruence.
  - intros Hpq.
    destruct (String.eqb_spec value (toString p)) as [Hsel|Hsel].
    + destruct (String.eqb_spec String.EmptyString (toString q)); congruence.
    + destruct (String.eqb_spec (toString p) (toString q)); congruence.
Qed.

(** With the presets given as strings: ["25"] is selected, a click on ["50"]
    selects ["50"]. *)
Lemma togglePreset_laws_witness :
  TogglePreset.togglePreset (fun preset : String.string => preset)
    (TogglePreset.togglePreset (fun preset : String.string => preset)
       String.EmptyString "25"%string) "50"%string
  = "50"%string.
Proof.
  apply (proj2 (proj2 (proj2 (togglePreset_laws String.string
                                (fun preset => preset) String.EmptyString
                                "25"%string "50"%string)))).
  discriminate.
Defined.

(** X10.  The preset buttons of the trading panel do what [togglePreset]
    does, each on its own cell: a buy preset changes [buyAmount] only, a sell
    preset changes [sellPercentage] only.  A click on a preset with a
    non-empty string inverts whether that preset is drawn as selected. *)
Theorem panel_presets_toggle :
  forall (T : Type) (toString : T -> String.string) (preset : T)
         (s : TradingPanel.PanelState),
    TradingPanel.clickBuyPreset toString preset s
      = TradingPanel.mkPanelState (TradingPanel.tradeMode s)
          (TogglePreset.togglePreset toString (TradingPanel.buyAmount s) preset)
          (TradingPanel.sellPercentage s) /\
    TradingPanel.clickSellPreset toString preset s
      = TradingPanel.mkPanelState (TradingPanel.tradeMode s)
          (TradingPanel.buyAmount s)
          (TogglePreset.togglePreset toString (TradingPanel.sellPercentage s)
             preset) /\
    (toString preset <> String.EmptyString ->
     TradingPanel.buyPresetSelected toString preset
       (TradingPanel.clickBuyPreset toString preset s)
       = negb (TradingPanel.buyPresetSelected toString preset s) /\
     TradingPanel.sellPresetSelected toString preset
       (TradingPanel.clickSellPreset toString preset s)
       = negb (TradingPanel.sellPresetSelected toString preset s)).
Proof.
  intros T toString preset s.
  unfold TradingPanel.clickBuyPreset, TradingPanel.clickSellPreset,
    TradingPanel.buyPresetSelected, TradingPanel.sellPresetSelected,
    TogglePreset.togglePreset; cbv zeta.
  split; [|split].
  - destruct (String.eqb (TradingPanel.buyAmount s) (toString preset));
      reflexivity.
  - destruct (String.eqb (TradingPanel.sellPercentage s) (toString preset));
      reflexivity.
  - intros Hne. split.
    + destruct (String.eqb_spec (TradingPanel.buyAmount s) (toString preset));
        cbn [TradingPanel.buyAmount TradingPanel.setBuyAmount negb].
      * destruct (String.eqb_spec String.EmptyString (toString preset));
          congruence.
      * apply String.eqb_refl.
    + destruct (String.eqb_spec (TradingPanel.sellPercentage s)
                  (toString preset));
        cbn [TradingPanel.sellPercentage TradingPanel.setSellPercentage negb].
      * destruct (String.eqb_spec String.EmptyString (toString preset));
          congruence.
      * apply String.eqb_refl.
Qed.

Lemma panel_presets_toggle_witness :
  TradingPanel.buyPresetSelected (fun preset : String.string => preset)
    "0.01"%string
    (TradingPanel.clickBuyPreset (fun preset : String.string => preset)
       "0.01"%string TradingPanel.initialPanelState)
  = negb (TradingPanel.buyPresetSelected (fun preset : String.string => preset)
            "0.01"%string TradingPanel.initialPanelState).
Proof.
  apply (proj2 (proj2 (panel_presets_toggle String.string (fun preset => preset)
                         "0.01"%string TradingPanel.initialPanelState))).
  discriminate.
Defined.

(** ** The one-click trade *)



(** X12.  The trade flow written in the trading panel and the one of the
    [useOneClickTrade] hook have the same effects, for all collaborators and
    all inputs. *)
Theorem panel_and_hook_trade_agree :
  forall (Num Tx Signed : Type) (C : Trade.Collaborators Num Tx Signed)
         (s : TradingPanel.PanelState),
    TradingPanel.handleTrade C s
    = OneClickTrade.handleTrade C (TradingPanel.tradeMode s)
        (TradingPanel.buyAmount s) (TradingPanel.sellPercentage s).
Proof.
  intros Num Tx Signed C s. reflexivity.
Qed.


(** ** The token page *)

Lemma mapiFrom_length {A B : Type} (f : A -> nat -> B) (arr : list A) :
  forall start, List.length (TokenPage.mapiFrom f start arr) = List.length arr.
Proof.
  induction arr as [|a rest IH]; intros start; simpl.
  - reflexivity.
  - rewrite IH. reflexivity.
Qed.

Lemma mapiFrom_nth_error {A B : Type} (f : A -> nat -> B) (arr : list A) :
  forall start i,
    nth_error (TokenPage.mapiFrom f start arr) i
    = option_map (fun a => f a (start + i)%nat) (nth_error arr i).
Proof.
  induction arr as [|a rest IH]; intros start i.
  - destruct i; reflexivity.
  - destruct i as [|i]; simpl.
    + rewrite Nat.add_0_r. reflexivity.
    + rewrite IH. rewrite Nat.add_succ_r. reflexivity.
Qed.

Lemma map_mapiFrom {A B C : Type} (g : B -> C) (f : A -> nat -> B)
    (arr : list A) :
  forall start,
    map g (TokenPage.mapiFrom f start arr)
    = TokenPage.mapiFrom (fun a i => g (f a i)) start arr.
Proof.
  induction arr as [|a rest IH]; intros start; simpl.
  - reflexivity.
  - rewrite IH. reflexivity.
Qed.

Lemma mapiFrom_ignoring_index {A B : Type} (g : A -> B) (arr : list A) :
  forall start, TokenPage.mapiFrom (fun a _ => g a) start arr = map g arr.
Proof.
  induction arr as [|a rest IH]; intros start; simpl.
  - reflexivity.
  - rewrite IH. reflexivity.
Qed.

Lemma In_mapiFrom {A B : Type} (f : A -> nat -> B) (arr : list A) :
  forall start y,
    In y (TokenPage.mapiFrom f start arr) ->
    exists a i, (start <= i)%nat /\ y = f a i.
Proof.
  induction arr as [|a rest IH]; intros start y Hin; simpl in Hin.
  - contradiction.
  - destruct Hin as [Hy|Hin].
    + exists a, start. split; [lia | congruence].
    + destruct (IH (S start) y Hin) as (b & i & Hle & Hy).
      exists b, i. split; [lia | exact Hy].
Qed.

(** Results that determine their index are pairwise distinct. *)
Lemma mapiFrom_NoDup {A B : Type} (f : A -> nat -> B) (arr : list A) :
  (forall a b i j, f a i = f b j -> i = j) ->
  forall start, NoDup (TokenPage.mapiFrom f start arr).
Proof.
  intros Hinj. induction arr as [|a rest IH]; intros start; simpl.
  - constructor.
  - constructor; [|apply IH].
    intros Hin. apply In_mapiFrom in Hin.
    destruct Hin as (b & i & Hle & Hy).
    apply Hinj in Hy. lia.
Qed.

Lemma nonNull_length {A : Type} (arr : list (option A)) :
  (List.length (TokenPage.nonNull arr) <= List.length arr)%nat.
Proof.
  induction arr as [|[a|] rest IH]; simpl; lia.
Qed.

(** The decimal digits of an index contain no dash and determine it. *)
Lemma showNat_no_dash (n : nat) : hasDash (TokenPage.showNat n) = false.
Proof.
  unfold TokenPage.showNat. generalize (Nat.to_uint n) as d.
  induction d; simpl; auto.
Qed.

Lemma showNat_inj (n m : nat) :
  TokenPage.showNat n = TokenPage.showNat m -> n = m.
Proof.
  unfold TokenPage.showNat. intros Heq.
  apply DecimalNat.Unsigned.to_uint_inj.
  apply (f_equal DecimalString.NilEmpty.uint_of_string) in Heq.
  rewrite !DecimalString.NilEmpty.usu in Heq. congruence.
Qed.

(** The text after the last dash of a string is determined by the string. *)
Lemma dash_suffix_inj (a1 : String.string) :
  forall a2 b1 b2,
    String.append a1 (String.String "-" b1)
    = String.append a2 (String.String "-" b2) ->
    hasDash b1 = false -> hasDash b2 = false ->
    b1 = b2.
Proof.
  induction a1 as [|ch1 a1 IH]; intros a2 b1 b2 Heq H1 H2.
  - destruct a2 as [|ch2 a2]; simpl in Heq.
    + congruence.
    + injection Heq as Hch Hrest. subst b1.
      exfalso. clear - H1. induction a2 as [|ch a2 IHa]; simpl in H1.
      * discriminate H1.
      * apply orb_false_iff in H1. destruct H1 as [_ H1]. auto.
  - destruct a2 as [|ch2 a2]; simpl in Heq.
    + injection Heq as Hch Hrest. subst b2.
      exfalso. clear - H2. induction a1 as [|ch a1 IHa]; simpl in H2.
      * discriminate H2.
      * apply orb_false_iff in H2. destruct H2 as [_ H2]. auto.
    + injection Heq as Hch Hrest. eapply IH; eassumption.
Qed.

Lemma uniqueIdOf_determines_index (ev1 ev2 : TokenPage.RawEvent) (i j : nat) :
  TokenPage.uniqueIdOf ev1 i = TokenPage.uniqueIdOf ev2 j -> i = j.
Proof.
  unfold TokenPage.uniqueIdOf. intros Heq.
  apply showNat_inj.
  change (String.append "-" (TokenPage.showNat i))
    with (String.String "-" (TokenPage.showNat i)) in Heq.
  change (String.append "-" (TokenPage.showNat j))
    with (String.String "-" (TokenPage.showNat j)) in Heq.
  eapply dash_suffix_inj; [exact Heq | apply showNat_no_dash..].
Qed.

Lemma uniqueIdOf_is_key (ev : TokenPage.RawEvent) (index : nat)
    (fallback : String.string) :
  TokenPage.orString (Some (TokenPage.uniqueIdOf ev index)) fallback
  = TokenPage.uniqueIdOf ev index.
Proof.
  unfold TokenPage.uniqueIdOf.
  destruct (TokenPage.ev_id ev); reflexivity.
Qed.

(** X13.  When the response has its timestamps and its closes, the chart gets
    one point per timestamp, in the order of the timestamps, and the point
    at each index carries the entry of each series at that index, or
    [undefined] where the series is missing or shorter.  When the response,
    its timestamps or its closes are missing, no chart data is set. *)
Theorem chartData_follows_timestamps :
  forall (V : Type) (b : TokenPage.Bars V),
    (forall times closes,
        TokenPage.t b = Some times -> TokenPage.c b = Some closes ->
        exists points,
          TokenPage.chartData (Some b) = Some points /\
          List.length points = List.length times /\
          map TokenPage.time points = times /\
          forall i,
            nth_error points i
            = option_map
                (fun time =>
                   TokenPage.mkChartDataPoint time
                     (TokenPage.optionalIndex (TokenPage.o b) i)
                     (TokenPage.optionalIndex (TokenPage.h b) i)
                     (TokenPage.optionalIndex (TokenPage.l b) i)
                     (nth_error closes i))
                (nth_error times i)) /\
    (TokenPage.t b = None \/ TokenPage.c b = None ->
     TokenPage.chartData (Some b) = None) /\
    TokenPage.chartData (@None (TokenPage.Bars V)) = None.
Proof.
  intros V b. split; [|split].
  - intros times closes Ht Hc. unfold TokenPage.chartData.
    rewrite Ht, Hc. eexists. split; [reflexivity|].
    unfold TokenPage.mapi. split; [apply mapiFrom_length|]. split.
    + rewrite map_mapiFrom. simpl.
      rewrite (mapiFrom_ignoring_index (fun time : V => time)).
      apply map_id.
    + intros i. rewrite mapiFrom_nth_error. reflexivity.
  - intros [Ht|Hc]; unfold TokenPage.chartData.
    + rewrite Ht. reflexivity.
    + rewrite Hc. destruct (TokenPage.t b); reflexivity.
  - reflexivity.
Qed.

(** Three timestamps, two opens, no highs: the third point has a close and a
    low but neither an open nor a high. *)
Lemma chartData_follows_timestamps_witness :
  exists points,
    TokenPage.chartData (Some sampleBars) = Some points /\
    nth_error points 2
    = Some (TokenPage.mkChartDataPoint 30 None None (Some 6) (Some 9)).
Proof.
  destruct (proj1 (chartData_follows_timestamps Z sampleBars)
              [10; 20; 30] [7; 8; 9] eq_refl eq_refl)
    as (points & Hdata & _ & _ & Hnth).
  exists points. split; [exact Hdata|].
  rewrite Hnth. reflexivity.
Defined.

(** X14.  The keys of the transaction rows are pairwise distinct, also when
    the response repeats an id: the key of a row is its [uniqueId], which ends
    in the row's index.  There is one row per non-null item, in the order of
    the response, and a row carries its item's id and transaction hash. *)
Theorem transaction_row_keys_are_unique :
  forall (Num : Type) (F : TokenPage.Floats Num) (decimals : option Z)
         (items : list (option TokenPage.RawEvent)),
    NoDup (map TokenPage.rowKey (TokenPage.tokenEvents F decimals items)) /\
    map TokenPage.id (TokenPage.tokenEvents F decimals items)
      = map TokenPage.ev_id (TokenPage.nonNull items) /\
    map TokenPage.transactionHash (TokenPage.tokenEvents F decimals items)
      = map TokenPage.ev_transactionHash (TokenPage.nonNull items) /\
    (List.length (TokenPage.tokenEvents F decimals items)
     <= List.length items)%nat.
Proof.
  intros Num F decimals items.
  unfold TokenPage.tokenEvents, TokenPage.mapi. split; [|split; [|split]].
  - rewrite map_mapiFrom.
    apply mapiFrom_NoDup. intros a b i j Heq.
    unfold TokenPage.rowKey in Heq.
    cbn [TokenPage.uniqueId TokenPage.id] in Heq.
    rewrite !uniqueIdOf_is_key in Heq.
    apply (uniqueIdOf_determines_index a b i j Heq).
  - rewrite map_mapiFrom. simpl. apply mapiFrom_ignoring_index.
  - rewrite map_mapiFrom. simpl. apply mapiFrom_ignoring_index.
  - rewrite mapiFrom_length. apply nonNull_length.
Qed.

(** The rows of a response that reports one id twice, with a missing item in
    between: the keys differ in their last component. *)
Lemma transaction_row_keys_are_unique_witness :
  map TokenPage.rowKey (TokenPage.tokenEvents noFloats None sampleItems)
    = ["0xabc:1-19-4-7-0"%string; "0xabc:1-19-4-7-1"%string] /\
  NoDup (map TokenPage.rowKey (TokenPage.tokenEvents noFloats None sampleItems)).
Proof.
  split; [reflexivity|].
  apply (proj1 (transaction_row_keys_are_unique unit noFloats None sampleItems)).
Defined.

(** ** A click on the header *)

(** X15.  There is no movement threshold: a press on the header of a
    non-maximized window followed by a release, without any pointer move, is a
    complete drag.  Both callbacks are invoked, [onDragStart] before
    [onDragEnd]; position, size and the saved geometry are unchanged and the
    mode is Idle afterwards. *)
Theorem header_click_is_a_drag :
  forall (i : Impl) (P : Props) (p o : Point) (s : State),
    isMaximized s = false ->
    onDragStart P = true ->
    onDragEnd P = true ->
    run i P [BeginDrag p o; EndInteraction] s =
    (mkState (position s) (size s) false false false
       {| x := x p - x o; y := y p - y o |}
       (resizeStart s) (prevPosition s) (prevSize s),
     [Notify DragStart; Notify DragEnd]).
Proof.
  intros i P p o s Hm Hstart Hend. simpl.
  rewrite (beginDrag_windowed i P p o s Hm).
  rewrite endInteraction_eq. simpl.
  rewrite Hm, Hstart, Hend. reflexivity.
Qed.

Lemma header_click_is_a_drag_witness :
  snd (run HookImpl notifiedProps
         [BeginDrag {| x := 150; y := 150 |} {| x := 100; y := 100 |};
          EndInteraction]
         (initialState notifiedProps))
  = [Notify DragStart; Notify DragEnd].
Proof.
  rewrite (header_click_is_a_drag HookImpl notifiedProps {| x := 150; y := 150 |}
             {| x := 100; y := 100 |} (initialState notifiedProps)
             eq_refl eq_refl eq_refl).
  reflexivity.
Defined.
